(** * ResumeML: the LinkedIn profile parser ([linkedin/profile_parser.py])

    A shallow embedding of the [Profile] class and of the [cache]
    decorator, together with the part of the document-tree interface
    (BeautifulSoup's [find], [find_all], [.string], [.strings],
    [get_attribute_list]) that the accessors rely on.

    Conventions.
    - A parsed document is a tree of [node]s.  Text is a [string] whose
      characters are code points below U+0100, one [ascii] per code
      point ([Text.code] gives its number; a string is not a UTF-8 byte
      sequence).  [lower], [strip], [isdigit] and [int] are Python's on
      these code points; text with other characters is outside the
      model.
    - A Python reference that may be [None] is an [option].
    - A method body is a sequence of statements in the [flow] monad:
      a statement either falls through ([Next]), leaves the function
      ([Return]) or raises ([Raise]).
    - The instance dictionary of a [Profile] (where the [cache] decorator
      stores its values with [setattr]) is a [gmap string value]. *)

From Stdlib Require Import ZArith Ascii String List Bool Lia.
From stdpp Require Import base option list strings gmap fin_maps.

Open Scope Z_scope.
Open Scope string_scope.
Open Scope list_scope.

(** ** Text: the [str] methods used by the parser *)

Module Text.

(** The number of a code point, and the code point of a number. *)
Definition code (c : ascii) : N := N_of_ascii c.
Definition chr (n : N) : ascii := ascii_of_N n.

(** [c.isdecimal()]: the digits 0 to 9. *)
Definition isdecimal_char (c : ascii) : bool :=
  (48 <=? code c)%N && (code c <=? 57)%N.

(** [c.isdigit()] for one character: the decimal digits and the
    superscripts two, three (U+00B2, U+00B3) and one (U+00B9). *)
Definition isdigit_char (c : ascii) : bool :=
  isdecimal_char c
  || (code c =? 178)%N || (code c =? 179)%N || (code c =? 185)%N.

(** [int(c)] for one character: the value of a decimal digit; any other
    character, a superscript digit included, is a ValueError ([None]). *)
Definition int_char (c : ascii) : option Z :=
  if isdecimal_char c then Some (Z.of_N (code c) - 48) else None.

(** [c.isspace()]: tab, line feed, vertical tab, form feed, carriage
    return, the four separators 0x1c-0x1f, the space, U+0085 and the
    no-break space U+00A0. *)
Definition isspace_char (c : ascii) : bool :=
  ((9 <=? code c)%N && (code c <=? 13)%N)
  || ((28 <=? code c)%N && (code c <=? 32)%N)
  || (code c =? 133)%N || (code c =? 160)%N.

(** [c.lower()]: A-Z, and the capital letters U+00C0-U+00DE except the
    multiplication sign U+00D7, move up by 32. *)
Definition lower_char (c : ascii) : ascii :=
  if ((65 <=? code c)%N && (code c <=? 90)%N)
     || ((192 <=? code c)%N && (code c <=? 214)%N)
     || ((216 <=? code c)%N && (code c <=? 222)%N)
  then ascii_of_N (code c + 32)
  else c.

Definition chars (s : string) : list ascii := list_ascii_of_string s.
Definition of_chars (l : list ascii) : string := string_of_list_ascii l.

(** [s.isdigit()]: at least one character, and all of them digits. *)
Definition isdigit (s : string) : bool :=
  match chars s with
  | [] => false
  | cs => forallb isdigit_char cs
  end.

(** The longest digit string [int] converts: the default of
    [sys.set_int_max_str_digits] in CPython 3.11. *)
Definition int_max_str_digits : nat := 4300.

(** [int(s)] for a string of digit characters: base ten, most
    significant digit first; a ValueError ([None]) when the string is
    empty, when a character is not a decimal digit, or when there are
    more than [int_max_str_digits] of them. *)
Definition int (s : string) : option Z :=
  if (0 <? length (chars s))%nat
     && forallb isdecimal_char (chars s)
     && (length (chars s) <=? int_max_str_digits)%nat
  then Some (fold_left (fun acc c => acc * 10 + (Z.of_N (code c) - 48)) (chars s) 0)
  else None.

(** [s.lower()]. *)
Definition lower (s : string) : string := of_chars (map lower_char (chars s)).

Fixpoint lstrip_chars (l : list ascii) : list ascii :=
  match l with
  | c :: l' => if isspace_char c then lstrip_chars l' else l
  | [] => []
  end.

(** [s.strip()]: whitespace removed at both ends. *)
Definition strip (s : string) : string :=
  of_chars (rev (lstrip_chars (rev (lstrip_chars (chars s))))).

(** [" ".join(l)]. *)
Fixpoint join_space (l : list string) : string :=
  match l with
  | [] => ""
  | [s] => s
  | s :: l' => s ++ " " ++ join_space l'
  end.

Fixpoint starts_with (p s : list ascii) : bool :=
  match p, s with
  | [], _ => true
  | a :: p', b :: s' => Ascii.eqb a b && starts_with p' s'
  | _ :: _, [] => false
  end.

(** The text after the leftmost occurrence of a non-empty [sep], if
    there is one. *)
Fixpoint after_first (sep s : list ascii) : option (list ascii) :=
  if starts_with sep s then Some (drop (length sep) s)
  else match s with
       | [] => None
       | _ :: s' => after_first sep s'
       end.

Fixpoint before_first (sep s : list ascii) : list ascii :=
  if starts_with sep s then []
  else match s with
       | [] => []
       | c :: s' => c :: before_first sep s'
       end.

(** [s.split(sep, 1)]: one piece when [sep] does not occur, otherwise
    the text before and the text after its leftmost occurrence. *)
Definition split1 (s sep : string) : list string :=
  match after_first (chars sep) (chars s) with
  | None => [s]
  | Some rest => [of_chars (before_first (chars sep) (chars s)); of_chars rest]
  end.

(** [s.replace(c, "")] for a one-character string [c]. *)
Definition remove_char (c : ascii) (s : string) : string :=
  of_chars (List.filter (fun x => negb (Ascii.eqb x c)) (chars s)).

End Text.

(** ** The document tree *)

(** An attribute value as the tree builder stores it: a single string, or
    a list of tokens for the multi-valued attributes ([class], [rel], ...). *)
Inductive attr_value :=
| AStr (s : string)
| AList (tokens : list string).

(** A node: a text fragment ([NavigableString]), a comment (a string-like
    node that is not part of the visible text) or an element ([Tag]). *)
#[warnings="-register-all"]
Inductive node :=
| Str (s : string)
| Comment (s : string)
| Tag (name : string) (attrs : gmap string attr_value) (contents : list node).

Module Soup.

(** What a search compares an attribute with: a string, or [True]
    (the attribute only has to be present). *)
Inductive match_against :=
| MStr (s : string)
| MTrue.

(** [SoupStrainer]: an optional tag name and the attribute filters. *)
Record SoupStrainer := {
  st_name : option string;
  st_attrs : list (string * match_against)
}.

Definition class_ (c : string) : SoupStrainer :=
  {| st_name := None; st_attrs := [("class", MStr c)] |}.
Definition id_ (i : string) : SoupStrainer :=
  {| st_name := None; st_attrs := [("id", MStr i)] |}.
Definition attrs_ (k v : string) : SoupStrainer :=
  {| st_name := None; st_attrs := [(k, MStr v)] |}.

(** [SoupStrainer._matches] on a single string. *)
Definition matches_str (markup : string) (m : match_against) : bool :=
  match m with
  | MTrue => true
  | MStr s => String.eqb markup s
  end.

(** [SoupStrainer._matches] on the value of an attribute.  A list
    matches when one of its tokens does, or when the tokens joined by
    single spaces do; an absent attribute matches only an empty
    string. *)
Definition _matches (markup : option attr_value) (m : match_against) : bool :=
  match markup with
  | Some (AList tokens) =>
      existsb (fun item => matches_str item m) tokens
      || matches_str (Text.join_space tokens) m
  | Some (AStr s) => matches_str s m
  | None =>
      match m with
      | MTrue => false
      | MStr s => String.eqb s ""
      end
  end.

(** [SoupStrainer.search_tag] on an element. *)
Definition search_tag (st : SoupStrainer) (n : node) : bool :=
  match n with
  | Tag name attrs _ =>
      match st_name st with
      | Some want => String.eqb name want
      | None => true
      end
      && forallb (fun '(attr, m) => _matches (attrs !! attr) m) (st_attrs st)
  | _ => false
  end.

(** The descendants of a node in document order, each with its parent. *)
Fixpoint descendants_with_parent (n : node) : list (node * node) :=
  match n with
  | Tag _ _ contents =>
      (fix go (cs : list node) : list (node * node) :=
         match cs with
         | [] => []
         | c :: cs' => (n, c) :: descendants_with_parent c ++ go cs'
         end) contents
  | _ => []
  end.

Definition descendants (n : node) : list node :=
  (descendants_with_parent n).*2.

(** [tag.find_all(...)], with the parent of each result. *)
Definition find_all_with_parent (st : SoupStrainer) (n : node) : list (node * node) :=
  List.filter (fun pc => search_tag st pc.2) (descendants_with_parent n).

(** [tag.find_all(...)]. *)
Definition find_all (st : SoupStrainer) (n : node) : list node :=
  (find_all_with_parent st n).*2.

(** [tag.find(...)]: the first result of [find_all], or [None]. *)
Definition find (st : SoupStrainer) (n : node) : option node :=
  head (find_all st n).

(** [node.string]: a string-like node is its own string; an element
    has one only through a single child. *)
Fixpoint string_of (n : node) : option string :=
  match n with
  | Str s => Some s
  | Comment s => Some s
  | Tag _ _ [c] => string_of c
  | Tag _ _ _ => None
  end.

(** [tag.strings]: the text fragments below a node, in document order. *)
Definition strings (n : node) : list string :=
  omap (fun d => match d with Str s => Some s | _ => None end) (descendants n).

(** [tag.get_attribute_list(key)]. *)
Definition get_attribute_list (n : node) (key : string) : list (option string) :=
  match n with
  | Tag _ attrs _ =>
      match attrs !! key with
      | Some (AList tokens) => Some <$> tokens
      | Some (AStr s) => [Some s]
      | None => [None]
      end
  | _ => [None]
  end.

(** [tag[key]]. *)
Definition getitem (n : node) (key : string) : option attr_value :=
  match n with
  | Tag _ attrs _ => attrs !! key
  | _ => None
  end.

End Soup.

(** ** Python values, exceptions and control flow *)

(** The values the accessors compute or store. *)
#[warnings="-register-all"]
Inductive value :=
| VNone
| VStr (s : string)
| VInt (z : Z)
| VList (l : list value)
| VTag (n : node).

Inductive exn :=
| TypeError (msg : string)
| AttributeError
| IndexError
| KeyError
| ValueError.

(** The effect of a statement: control falls through to the next one,
    the function returns, or an exception propagates. *)
Inductive flow (A : Type) :=
| Next (a : A)
| Return (v : value)
| Raise (e : exn).
Arguments Next {A} a.
Arguments Return {A} v.
Arguments Raise {A} e.

(** The outcome of a call. *)
Inductive result :=
| Ok (v : value)
| Err (e : exn).

#[global] Instance flow_ret : MRet flow := fun A a => Next a.
#[global] Instance flow_bind : MBind flow := fun A B f m =>
  match m with
  | Next a => f a
  | Return v => Return v
  | Raise e => Raise e
  end.

(** A function that runs off the end of its body returns [None]. *)
Definition call_result (body : flow unit) : result :=
  match body with
  | Next _ => Ok VNone
  | Return v => Ok v
  | Raise e => Err e
  end.

Module Py.

Definition is_None {A} (x : option A) : bool :=
  match x with None => true | Some _ => false end.
Definition is_not_None {A} (x : option A) : bool := negb (is_None x).

(** A possibly absent string, and a possibly absent tag, as values. *)
Definition str_value (o : option string) : value :=
  match o with Some s => VStr s | None => VNone end.
Definition tag_value (o : option node) : value :=
  match o with Some n => VTag n | None => VNone end.

(** [x.string]. *)
Definition dot_string (x : option node) : flow (option string) :=
  match x with
  | Some n => Next (Soup.string_of n)
  | None => Raise AttributeError
  end.

(** [x.strings]. *)
Definition dot_strings (x : option node) : flow (list string) :=
  match x with
  | Some n => Next (Soup.strings n)
  | None => Raise AttributeError
  end.

(** [x.find(...)]. *)
Definition dot_find (x : option node) (st : Soup.SoupStrainer) : flow (option node) :=
  match x with
  | Some n => Next (Soup.find st n)
  | None => Raise AttributeError
  end.

(** [x.find_all(...)]. *)
Definition dot_find_all (x : option node) (st : Soup.SoupStrainer)
  : flow (list node) :=
  match x with
  | Some n => Next (Soup.find_all st n)
  | None => Raise AttributeError
  end.

(** [x.find_all(...)], each result paired with its [.parent] (first
    component). *)
Definition dot_find_all_with_parent (x : option node) (st : Soup.SoupStrainer)
  : flow (list (node * node)) :=
  match x with
  | Some n => Next (Soup.find_all_with_parent st n)
  | None => Raise AttributeError
  end.

(** [o == s] for a possibly absent string [o]. *)
Definition str_eq (o : option string) (s : string) : bool :=
  match o with
  | Some t => String.eqb t s
  | None => false
  end.

(** [s.lower()] on a possibly absent string. *)
Definition dot_lower (s : option string) : flow string :=
  match s with
  | Some s => Next (Text.lower s)
  | None => Raise AttributeError
  end.

(** [int(s)] on a string that [isdigit] accepts. *)
Definition int_str (s : string) : flow Z :=
  match Text.int s with
  | Some z => Next z
  | None => Raise ValueError
  end.

(** [int(c)] on one character. *)
Definition int_character (c : ascii) : flow Z :=
  match Text.int_char c with
  | Some z => Next z
  | None => Raise ValueError
  end.

(** [v.split(sep, 1)] on an attribute value. *)
Definition dot_split1 (v : attr_value) (sep : string) : flow (list string) :=
  match v with
  | AStr s => Next (Text.split1 s sep)
  | AList _ => Raise AttributeError
  end.

(** [l[i]] on a list. *)
Definition index {A} (l : list A) (i : nat) : flow A :=
  match l !! i with
  | Some x => Next x
  | None => Raise IndexError
  end.

(** [tag[key]]. *)
Definition tag_getitem (n : node) (key : string) : flow attr_value :=
  match Soup.getitem n key with
  | Some v => Next v
  | None => Raise KeyError
  end.

(** The characters a [for] loop draws from a possibly absent string. *)
Definition iter_chars (s : option string) : flow (list ascii) :=
  match s with
  | Some s => Next (Text.chars s)
  | None => Raise (TypeError "'NoneType' object is not iterable")
  end.

(** [type(v).__name__]. *)
Definition type_name (v : value) : string :=
  match v with
  | VNone => "NoneType"
  | VStr _ => "str"
  | VInt _ => "int"
  | VList _ => "list"
  | VTag (Tag _ _ _) => "Tag"
  | VTag (Str _) => "NavigableString"
  | VTag (Comment _) => "Comment"
  end.

(** [len(v)]. *)
Definition len (v : value) : flow Z :=
  match v with
  | VList l => Next (Z.of_nat (length l))
  | VStr s | VTag (Str s) | VTag (Comment s) => Next (Z.of_nat (String.length s))
  | VTag (Tag _ _ contents) => Next (Z.of_nat (length contents))
  | VNone | VInt _ =>
      Raise (TypeError ("object of type '" ++ type_name v ++ "' has no len()"))
  end.

(** [v[0]]. *)
Definition first (v : value) : flow value :=
  match v with
  | VList l => index l 0
  | VStr s | VTag (Str s) | VTag (Comment s) =>
      match s with
      | String c _ => Next (VStr (String c EmptyString))
      | EmptyString => Raise IndexError
      end
  | VTag (Tag _ _ _) => Raise KeyError
  | VNone | VInt _ =>
      Raise (TypeError ("'" ++ type_name v ++ "' object is not subscriptable"))
  end.

End Py.

(** ** The [Profile] instance and the [cache] decorator *)

(** An instance: the parsed document ([self.soup]), the rest of the
    instance dictionary (where [setattr] puts the cached values), and a
    log that receives the cache variable each time a decorated function
    body is entered.  The log is an observation device only: no code
    reads it. *)
Record Profile := {
  soup : node;
  dict : gmap string value;
  body_runs : list string
}.

(** [Profile(html_str)], with the parse of [html_str] given. *)
Definition __init__ (document : node) : Profile :=
  {| soup := document; dict := ∅; body_runs := [] |}.

Definition hasattr (self : Profile) (attr : string) : bool :=
  bool_decide (is_Some (dict self !! attr)).

Definition setattr (self : Profile) (attr : string) (v : value) : Profile :=
  {| soup := soup self; dict := <[attr := v]> (dict self); body_runs := body_runs self |}.

Definition getattr (self : Profile) (attr : string) : result :=
  match dict self !! attr with
  | Some v => Ok v
  | None => Err AttributeError
  end.

(** The log entry made when the function wrapped under [cache_var] is
    about to run. *)
Definition entered (cache_var : string) (self : Profile) : Profile :=
  {| soup := soup self; dict := dict self; body_runs := cache_var :: body_runs self |}.

(** A bound method: it may update the instance, and returns or raises. *)
Definition method := Profile -> Profile * result.

(** [wrapper(self)] inside [cache(cache_var)]: the wrapped function runs
    only when the instance has no attribute [cache_var]; its value is
    stored under that name and read back. *)
Definition wrapper (cache_var : string) (func_to_wrap : method) : method :=
  fun self =>
    if negb (hasattr self cache_var) then
      match func_to_wrap (entered cache_var self) with
      | (self, Ok v) =>
          let self := setattr self cache_var v in
          (self, getattr self cache_var)
      | (self, Err e) => (self, Err e)
      end
    else (self, getattr self cache_var).

Definition _custom_cacher (cache_var : string) (func_to_wrap : method) : method :=
  wrapper cache_var func_to_wrap.

Definition cache (cache_var : string) : method -> method :=
  _custom_cacher cache_var.

(** Statements that may also update the instance. *)
Definition M (A : Type) : Type := Profile -> Profile * flow A.

#[global] Instance M_ret : MRet M := fun A a self => (self, Next a).
#[global] Instance M_bind : MBind M := fun A B f m self =>
  match m self with
  | (self, Next a) => f a self
  | (self, Return v) => (self, Return v)
  | (self, Raise e) => (self, Raise e)
  end.

(** Statements that leave the instance alone. *)
Definition pure {A} (stmt : flow A) : M A := fun self => (self, stmt).

(** [self.soup]. *)
Definition self_soup : M node := fun self => (self, Next (soup self)).

(** A body that only reads the instance. *)
Definition reads (body : Profile -> flow unit) : M unit :=
  fun self => (self, body self).

(** The access [self.p] to a property [p] from inside a body. *)
Definition access (p : method) : M value :=
  fun self =>
    match p self with
    | (self, Ok v) => (self, Next v)
    | (self, Err e) => (self, Raise e)
    end.

(** [def f(self): body]. *)
Definition def (body : M unit) : method :=
  fun self => let '(self, stmt) := body self in (self, call_result stmt).

(** [@property]: the attribute access calls the getter. *)
Definition property (fget : method) : method := fget.

(** ** The methods of [Profile]

    [def_f] is the body written under [def f(self)]; [f] is what the
    class finally binds to that name (with its decorators applied). *)

Module Methods.
Import Soup Py.

Definition def_name (self : Profile) : flow unit :=
  let name := find (class_ "pv-top-card-section__name Sans-26px-black-85%") (soup self) in
  (if is_not_None name then v ← dot_string name; Return (str_value v) else Next ());;
  let name := find (id_ "name") (soup self) in
  (if is_not_None name then v ← dot_string name; Return (str_value v) else Next ());;
  (if is_None name then Raise (TypeError "Name not found in profile HTML") else Next ());;
  Return (tag_value name).

Definition name : method := property (cache "__name" (def (reads def_name))).

(** The [for] loop of [skills]. *)
Fixpoint skills_loop (skills_html : list node) (skills_array : list value)
  : flow (list value) :=
  match skills_html with
  | [] => Next skills_array
  | skill :: skills_html =>
      if bool_decide (Some "see-more" ∈ get_attribute_list skill "class")
      then skills_loop skills_html skills_array
      else if bool_decide (Some "see-less" ∈ get_attribute_list skill "class")
      then skills_loop skills_html skills_array
      else if negb (bool_decide (find_all (class_ "skill see-more") skill = []))
      then skills_loop skills_html skills_array
      else
        text ← dot_string (Some skill);
        sanitized_skill ← dot_lower text;
        let sanitized_skill := Text.strip sanitized_skill in
        skills_loop skills_html (skills_array ++ [VStr sanitized_skill])
  end.

Definition def_skills (self : Profile) : flow unit :=
  let skills_html := find_all (class_ "pv-skill-entity__skill-name") (soup self) in
  let skills_html :=
    if (Z.of_nat (length skills_html) =? 0)%Z
    then find_all (class_ "skill") (soup self)
    else skills_html in
  skills_array ← skills_loop skills_html [];
  Return (VList skills_array).

Definition skills : method := property (cache "__skills" (def (reads def_skills))).

Definition def_username (self : Profile) : flow unit :=
  let url_links :=
    find_all {| st_name := Some "link";
                st_attrs := [("rel", MStr "canonical"); ("href", MTrue)] |}
             (soup self) in
  link ← index url_links 0;
  profile_url ← tag_getitem link "href";
  parts ← dot_split1 profile_url "/in/";
  username ← index parts 1;
  Return (VStr username).

Definition username : method := property (cache "__username" (def (reads def_username))).

Definition def_location (self : Profile) : flow unit :=
  let location_tag := find (class_ "locality") (soup self) in
  let location := None in
  location ← (if is_not_None location_tag then dot_string location_tag
              else Next location);
  Return (str_value location).

Definition location : method := property (cache "__location" (def (reads def_location))).

Definition def_all_companies (self : Profile) : flow unit :=
  let experience_tag := find (class_ "positions") (soup self) in
  (if is_None experience_tag then Return (VList []) else Next ());;
  companies ← dot_find_all experience_tag (class_ "item-subtitle");
  let companies_array :=
    fold_left (fun companies_array company =>
                 companies_array ++ [str_value (string_of company)])
              companies [] in
  Return (VList companies_array).

Definition all_companies : method :=
  property (cache "__all_companies" (def (reads def_all_companies))).

Definition def_current_company : M unit :=
  soup ← self_soup;
  let company_tag := find (attrs_ "data-section" "currentPositionsDetails") soup in
  (if is_not_None company_tag then
     pure (org ← dot_find company_tag (class_ "org");
           current_company ← dot_string org;
           Return (str_value current_company))
   else mret ());;
  companies ← access all_companies;
  n ← pure (len companies);
  (if negb (n =? 0)%Z then pure (c ← first companies; Return c) else mret ());;
  soup ← self_soup;
  let companies := find (class_ "headline title") soup in
  (if is_not_None companies then
     pure (v ← dot_string companies; Return (str_value v))
   else mret ());;
  pure (Return VNone).

Definition current_company : method :=
  property (cache "__current_company" (def def_current_company)).

(** The [for] loop of [connection_count]. *)
Fixpoint connections_loop (strings : list string) (cons : Z) : flow Z :=
  match strings with
  | [] => Next cons
  | string :: strings =>
      if Text.isdigit string then
        cons ← int_str string;
        connections_loop strings cons
      else if String.eqb string "500+" then connections_loop strings 500
      else connections_loop strings cons
  end.

Definition def_connection_count (self : Profile) : flow unit :=
  let conn_tag := find (class_ "member-connections") (soup self) in
  (if is_None conn_tag then Return VNone else Next ());;
  strings ← dot_strings conn_tag;
  let cons := 0 in
  cons ← connections_loop strings cons;
  Return (VInt cons).

Definition connection_count : method :=
  property (cache "__connection_count" (def (reads def_connection_count))).

(** The [for] loop of [get_bio]: fragments are appended until one
    equals "See more". *)
Fixpoint bio_loop (strings : list string) (bio : string) : string :=
  match strings with
  | [] => bio
  | string :: strings =>
      if negb (String.eqb string "See more")
      then bio_loop strings (bio ++ string)
      else bio
  end.

Definition def_get_bio (self : Profile) : flow unit :=
  let bio_tag :=
    find (class_ "pv-top-card-section__summary Sans-15px-black-70% mt5 pt5 ember-view")
         (soup self) in
  let bio := "" in
  (if is_None bio_tag then Return (VStr "") else Next ());;
  strings ← dot_strings bio_tag;
  let bio := bio_loop strings bio in
  Return (VStr (Text.remove_char "010"%char bio)).

Definition get_bio : method := def (reads def_get_bio).

(** The [for] loop of [get_media_number]. *)
Fixpoint media_loop (characters : list ascii) (media_num : Z) : flow Z :=
  match characters with
  | [] => Next media_num
  | character :: characters =>
      if Text.isdigit_char character then
        digit ← int_character character;
        media_loop characters (media_num * 10 + digit)
      else media_loop characters media_num
  end.

Definition def_get_media_number (self : Profile) : flow unit :=
  let media_title := find (class_ "pv-treasury-carousel__subheadline") (soup self) in
  (if is_None media_title then Return (VStr "") else Next ());;
  media_title ← dot_string media_title;
  characters ← iter_chars media_title;
  let media_num := 0 in
  media_num ← media_loop characters media_num;
  Return (VInt media_num).

Definition get_media_number : method := def (reads def_get_media_number).

(** The loop over the title blocks that the accomplishment getters
    share: at the first block whose text is one of the two labels, the
    items below the block's parent are appended and the loop is left. *)
Fixpoint titles_loop (label1 label2 : string) (sections : list (node * node))
  (array : list value) : list value :=
  match sections with
  | [] => array
  | (parent, section) :: sections =>
      if str_eq (string_of section) label1 || str_eq (string_of section) label2
      then
        fold_left (fun array item => array ++ [str_value (string_of item)])
                  (find_all (class_ "pv-accomplishments-block__summary-list-item") parent)
                  array
      else titles_loop label1 label2 sections array
  end.

(** The body that the accomplishment getters share, up to the labels. *)
Definition accomplishments (label1 label2 : string) (self : Profile) : flow unit :=
  let accomp_tag :=
    find (class_ "pv-profile-section artdeco-container-card pv-accomplishments-section ember-view")
         (soup self) in
  let accomp_tag :=
    if is_None accomp_tag
    then find (class_ "pv-profile-section pv-accomplishments-section artdeco-container-card ember-view")
              (soup self)
    else accomp_tag in
  sections ← dot_find_all_with_parent accomp_tag (class_ "pv-accomplishments-block__title");
  Return (VList (titles_loop label1 label2 sections [])).

Definition def_get_languages : Profile -> flow unit :=
  accomplishments "Language" "Languages".
Definition get_languages : method := def (reads def_get_languages).

Definition def_get_certification (self : Profile) : flow unit :=
  (Return (VInt 0) : flow unit);;
  accomplishments "Certification" "Certifications" self.
Definition get_certification : method := def (reads def_get_certification).

Definition def_get_projects : Profile -> flow unit :=
  accomplishments "Project" "Projects".
Definition get_projects : method := def (reads def_get_projects).

Definition def_get_awards : Profile -> flow unit :=
  accomplishments "Honors & Awards" "Award".
Definition get_awards : method := def (reads def_get_awards).

Definition def_get_organizations : Profile -> flow unit :=
  accomplishments "Organizations" "Organization".
Definition get_organizations : method := def (reads def_get_organizations).

Definition def_get_courses : Profile -> flow unit :=
  accomplishments "Courses" "Course".
Definition get_courses : method := def (reads def_get_courses).

End Methods.

(** ** The memoized accessors *)

Inductive accessor :=
| Name | Skills | Username | Location | CurrentCompany | AllCompanies | ConnectionCount.

(** The argument of [@cache(...)] over each accessor. *)
Definition cache_var (a : accessor) : string :=
  match a with
  | Name => "__name"
  | Skills => "__skills"
  | Username => "__username"
  | Location => "__location"
  | CurrentCompany => "__current_company"
  | AllCompanies => "__all_companies"
  | ConnectionCount => "__connection_count"
  end.

Definition getter (a : accessor) : method :=
  match a with
  | Name => Methods.name
  | Skills => Methods.skills
  | Username => Methods.username
  | Location => Methods.location
  | CurrentCompany => Methods.current_company
  | AllCompanies => Methods.all_companies
  | ConnectionCount => Methods.connection_count
  end.

(** The instance after a sequence of accesses, in the order given. *)
Definition access_all (l : list accessor) (self : Profile) : Profile :=
  fold_left (fun self a => (getter a self).1) l self.

(** The instances a program can hold: a new one, or one on which some
    accessors were called, in any order, whatever their outcome. *)
Inductive reachable : Profile -> Prop :=
| reach_new document : reachable (__init__ document)
| reach_get a self : reachable self -> reachable (getter a self).1.

(** What an accessor yields on a new instance of a document. *)
Definition outcome (a : accessor) (document : node) : result :=
  (getter a (__init__ document)).2.

(** How often the body under an accessor has been entered. *)
Definition runs (a : accessor) (self : Profile) : nat :=
  length (List.filter (String.eqb (cache_var a)) (body_runs self)).

(** The cache agrees with the document: a stored value is the one a new
    instance computes and its body ran once; a body without a stored
    value never ran, or fails on this document. *)
Definition consistent_at (a : accessor) (self : Profile) : Prop :=
  match dict self !! cache_var a with
  | Some v => outcome a (soup self) = Ok v /\ runs a self = 1%nat
  | None => runs a self = 0%nat \/ exists e, outcome a (soup self) = Err e
  end.

Definition consistent (self : Profile) : Prop :=
  forall a, consistent_at a self.

(** The part of an instance that [consistent_at a] looks at. *)
Definition same_at (a : accessor) (s s' : Profile) : Prop :=
  dict s' !! cache_var a = dict s !! cache_var a
  /\ runs a s' = runs a s
  /\ soup s' = soup s.

(** ** Derived notions and sample pages used in the statements *)

(** The accessors whose body only reads the document, with that body. *)
Definition pure_body (a : accessor) : option (Profile -> flow unit) :=
  match a with
  | Name => Some Methods.def_name
  | Skills => Some Methods.def_skills
  | Username => Some Methods.def_username
  | Location => Some Methods.def_location
  | AllCompanies => Some Methods.def_all_companies
  | ConnectionCount => Some Methods.def_connection_count
  | CurrentCompany => None
  end.

(** What [current_company] computes from the document and from what the
    access to [all_companies] yields. *)
Definition current_company_result (document : node) (all_companies : result) : result :=
  match Soup.find (Soup.attrs_ "data-section" "currentPositionsDetails") document with
  | Some company_tag =>
      match Soup.find (Soup.class_ "org") company_tag with
      | Some org => Ok (Py.str_value (Soup.string_of org))
      | None => Err AttributeError
      end
  | None =>
      match all_companies with
      | Err e => Err e
      | Ok companies =>
          match Py.len companies with
          | Next n =>
              if negb (n =? 0)%Z then call_result (c ← Py.first companies; Return c)
              else
                match Soup.find (Soup.class_ "headline title") document with
                | Some headline => Ok (Py.str_value (Soup.string_of headline))
                | None => Ok VNone
                end
          | Return v => Ok v
          | Raise e => Err e
          end
      end
  end.

#[global] Instance accessor_eq_dec : EqDecision accessor.
Proof. solve_decision. Defined.

Definition primary_name : Soup.SoupStrainer :=
  Soup.class_ "pv-top-card-section__name Sans-26px-black-85%".

(** A profile page with the name under the primary class, a skills
    list, a canonical link, a connections block and a media headline. *)
Definition page_full : node :=
  Tag "[document]" ∅ [
    Tag "html" ∅ [
      Tag "head" ∅ [
        Tag "link" {[ "rel" := AList ["canonical"];
                      "href" := AStr "https://www.linkedin.com/in/ann-lee/" ]} [] ];
      Tag "body" ∅ [
        Tag "h1" {[ "class" := AList ["pv-top-card-section__name"; "Sans-26px-black-85%"] ]}
          [Str "Ann Lee"];
        Tag "span" {[ "class" := AList ["pv-skill-entity__skill-name"] ]} [Str "  Python "];
        Tag "span" {[ "class" := AList ["pv-skill-entity__skill-name"; "see-more"] ]}
          [Str "See 3+"];
        Tag "span" {[ "class" := AList ["pv-skill-entity__skill-name"; "see-less"] ]}
          [Str "See less"];
        Tag "span" {[ "class" := AList ["member-connections"] ]}
          [Str "37"; Tag "b" ∅ [Str "500+"]; Str " connections"];
        Tag "h3" {[ "class" := AList ["pv-treasury-carousel__subheadline"] ]}
          [Str "1,234 media"];
        Tag "div" {[ "class" := AList ["positions"] ]}
          [Tag "h5" {[ "class" := AList ["item-subtitle"] ]} [Str "Acme"];
           Tag "h5" {[ "class" := AList ["item-subtitle"] ]} [Str "Initech"]];
        Tag "p" {[ "class" := AList ["headline"; "title"] ]} [Str "Engineer"]
      ]]].

(** A page whose primary name element holds two children, next to an
    element with id [name]. *)
Definition page_nested_name : node :=
  Tag "[document]" ∅ [
    Tag "html" ∅ [ Tag "body" ∅ [
      Tag "h1" {[ "class" := AList ["pv-top-card-section__name"; "Sans-26px-black-85%"] ]}
        [Tag "span" ∅ [Str "Ann"]; Tag "span" ∅ [Str "Lee"]];
      Tag "span" {[ "id" := AStr "name" ]} [Str "Ann Lee"] ]]].

(** A page with neither accomplishments container nor canonical link. *)
Definition page_bare : node :=
  Tag "[document]" ∅ [
    Tag "html" ∅ [
      Tag "body" ∅ [ Tag "span" {[ "id" := AStr "name" ]} [Str "Bob Ray"] ]]].

(** The number read off the digit characters of a text, as the
    specification words it: scanning left to right, over the decimal
    digits only, value = value * 10 + digit. *)
Definition digits_number (t : string) : Z :=
  fold_left (fun value c => value * 10 + (Z.of_N (Text.code c) - 48))
            (List.filter Text.isdecimal_char (Text.chars t)) 0.

(** The value of a text fragment, as the specification words it: a
    fragment of digits only is worth its integer value (when [int]
    gives one), the fragment "500+" is worth 500, any other fragment does
    not match. *)
Definition fragment_value (fragment : string) : option Z :=
  if Text.isdigit fragment then Text.int fragment
  else if String.eqb fragment "500+" then Some 500
  else None.

(** The value of the last matching fragment, or 0 without one. *)
Definition last_fragment_value (fragments : list string) : Z :=
  default 0 (last (omap fragment_value fragments)).

Definition accomplishments_class_1 : Soup.SoupStrainer :=
  Soup.class_ "pv-profile-section artdeco-container-card pv-accomplishments-section ember-view".
Definition accomplishments_class_2 : Soup.SoupStrainer :=
  Soup.class_ "pv-profile-section pv-accomplishments-section artdeco-container-card ember-view".
Definition canonical_link : Soup.SoupStrainer :=
  {| Soup.st_name := Some "link";
     Soup.st_attrs := [("rel", Soup.MStr "canonical"); ("href", Soup.MTrue)] |}.

Definition current_positions : Soup.SoupStrainer :=
  Soup.attrs_ "data-section" "currentPositionsDetails".

(** A page whose current-position section names no organisation, with an
    experience section and a headline. *)
Definition page_position_without_org : node :=
  Tag "[document]" ∅ [
    Tag "html" ∅ [ Tag "body" ∅ [
      Tag "div" {[ "data-section" := AStr "currentPositionsDetails" ]}
        [Tag "span" {[ "class" := AList ["title"] ]} [Str "Engineer"]];
      Tag "div" {[ "class" := AList ["positions"] ]}
        [Tag "h5" {[ "class" := AList ["item-subtitle"] ]} [Str "Acme"]];
      Tag "p" {[ "class" := AList ["headline"; "title"] ]} [Str "Engineer at Acme"] ]]].

(** The candidates: the elements of the primary skill-name class, or
    those of class "skill" when there is none of the former. *)
Definition skill_candidates (document : node) : list node :=
  match Soup.find_all (Soup.class_ "pv-skill-entity__skill-name") document with
  | [] => Soup.find_all (Soup.class_ "skill") document
  | skills_html => skills_html
  end.

(** A candidate is skipped when its class list holds "see-more" or
    "see-less", or when it contains an element of class "skill see-more". *)
Definition skipped (skill : node) : bool :=
  bool_decide (Some "see-more" ∈ Soup.get_attribute_list skill "class")
  || bool_decide (Some "see-less" ∈ Soup.get_attribute_list skill "class")
  || negb (bool_decide (Soup.find_all (Soup.class_ "skill see-more") skill = [])).

Definition kept_skills (document : node) : list node :=
  List.filter (fun skill => negb (skipped skill)) (skill_candidates document).

(** Lowercased, then trimmed. *)
Definition sanitized (t : string) : value := VStr (Text.strip (Text.lower t)).

(** A skills section with one ordinary entry, one "see more" entry and
    one "see less" entry. *)
Definition page_skills : node :=
  Tag "[document]" ∅ [ Tag "html" ∅ [ Tag "body" ∅ [
    Tag "ul" ∅ [
      Tag "span" {[ "class" := AList ["pv-skill-entity__skill-name"] ]} [Str "  Machine Learning "];
      Tag "span" {[ "class" := AList ["pv-skill-entity__skill-name"; "see-more"] ]} [Str "See 3+"];
      Tag "span" {[ "class" := AList ["pv-skill-entity__skill-name"; "see-less"] ]} [Str "See less"] ]]]].

(** A skills section with an entry whose text is split over two child
    elements. *)
Definition page_skill_markup : node :=
  Tag "[document]" ∅ [ Tag "html" ∅ [ Tag "body" ∅ [
    Tag "ul" ∅ [
      Tag "span" {[ "class" := AList ["pv-skill-entity__skill-name"] ]} [Str "Python"];
      Tag "span" {[ "class" := AList ["pv-skill-entity__skill-name"] ]}
        [Tag "b" ∅ [Str "Java"]; Tag "i" ∅ [Str "8"]] ]]]].

Definition headline_title : Soup.SoupStrainer := Soup.class_ "headline title".

(** What [all_companies] computes from the document. *)
Definition companies_of (document : node) : list value :=
  match Soup.find (Soup.class_ "positions") document with
  | Some experience_tag =>
      map (fun company => Py.str_value (Soup.string_of company))
          (Soup.find_all (Soup.class_ "item-subtitle") experience_tag)
  | None => []
  end.

(** The four alternatives in the words of the specification: (a) the
    direct text of the organisation element inside the current-position
    section, (b) the first entry of all_companies, (c) the direct text of
    the headline element, (d) None. *)
Definition alternatives (document : node) (all_companies : list value) : list value :=
  [ Py.str_value (company_tag ← Soup.find current_positions document;
                  org ← Soup.find (Soup.class_ "org") company_tag;
                  Soup.string_of org);
    match all_companies with c :: _ => c | [] => VNone end;
    Py.str_value (headline ← Soup.find headline_title document;
                  Soup.string_of headline);
    VNone ].

Definition is_VNone (v : value) : bool :=
  match v with VNone => true | _ => false end.

(** The first alternative that is not None, in the words of the
    specification ("first non-empty of the four in order"). *)
Definition first_non_empty (l : list value) : value :=
  match List.filter (fun v => negb (is_VNone v)) l with
  | v :: _ => v
  | [] => VNone
  end.

(** What the code selects: the alternative whose element is there,
    whether or not that element has a direct text. *)
Definition selected_by_presence (document : node) (all_companies : list value) : value :=
  match Soup.find current_positions document with
  | Some company_tag =>
      Py.str_value (org ← Soup.find (Soup.class_ "org") company_tag; Soup.string_of org)
  | None =>
      match all_companies with
      | c :: _ => c
      | [] =>
          match Soup.find headline_title document with
          | Some headline => Py.str_value (Soup.string_of headline)
          | None => VNone
          end
      end
  end.

(** A page whose current-position section holds an organisation element
    with its text split over two children, next to an experience section
    and a headline. *)
Definition page_org_markup : node :=
  Tag "[document]" ∅ [
    Tag "html" ∅ [ Tag "body" ∅ [
      Tag "div" {[ "data-section" := AStr "currentPositionsDetails" ]}
        [Tag "span" {[ "class" := AList ["org"] ]}
           [Tag "b" ∅ [Str "Acme"]; Tag "i" ∅ [Str "Inc"]]];
      Tag "div" {[ "class" := AList ["positions"] ]}
        [Tag "h5" {[ "class" := AList ["item-subtitle"] ]} [Str "Initech"]];
      Tag "p" {[ "class" := AList ["headline"; "title"] ]} [Str "Engineer"] ]]].

(** A page with a current-position section that names the organisation,
    and an experience section. *)
Definition page_current_position : node :=
  Tag "[document]" ∅ [
    Tag "html" ∅ [ Tag "body" ∅ [
      Tag "div" {[ "data-section" := AStr "currentPositionsDetails" ]}
        [Tag "span" {[ "class" := AList ["org"] ]} [Str "Acme"]];
      Tag "div" {[ "class" := AList ["positions"] ]}
        [Tag "h5" {[ "class" := AList ["item-subtitle"] ]} [Str "Initech"]] ]]].

(** The summary element that [get_bio] reads. *)
Definition bio_summary : Soup.SoupStrainer :=
  Soup.class_ "pv-top-card-section__summary Sans-15px-black-70% mt5 pt5 ember-view".

(** The concatenation of a list of strings. *)
Definition joined (l : list string) : string := fold_right String.append "" l.

Definition newline : ascii := "010"%char.

(** A page whose summary holds two paragraphs, the "See more" button
    and the text behind it. *)
Definition page_bio : node :=
  Tag "[document]" ∅ [
    Tag "html" ∅ [ Tag "body" ∅ [
      Tag "p" {[ "class" := AList ["pv-top-card-section__summary"; "Sans-15px-black-70%";
                                   "mt5"; "pt5"; "ember-view"] ]}
        [Str "Hello"; Tag "span" ∅ [Str " world
"]; Tag "a" ∅ [Str "See more"]; Str " hidden"] ]]].

(** The five getters that scan the accomplishments container. *)
Inductive accomplishment :=
| Languages | Projects | Awards | Organizations | Courses.

Definition accomplishment_getter (k : accomplishment) : method :=
  match k with
  | Languages => Methods.get_languages
  | Projects => Methods.get_projects
  | Awards => Methods.get_awards
  | Organizations => Methods.get_organizations
  | Courses => Methods.get_courses
  end.

(** The two titles a getter recognises. *)
Definition labels (k : accomplishment) : string * string :=
  match k with
  | Languages => ("Language", "Languages")
  | Projects => ("Project", "Projects")
  | Awards => ("Honors & Awards", "Award")
  | Organizations => ("Organizations", "Organization")
  | Courses => ("Courses", "Course")
  end.

(** The accomplishments container: the first element of the first class
    spelling, or else of the second. *)
Definition accomplishments_container (document : node) : option node :=
  match Soup.find (Soup.class_ "pv-profile-section artdeco-container-card pv-accomplishments-section ember-view") document with
  | Some accomp_tag => Some accomp_tag
  | None =>
      Soup.find (Soup.class_ "pv-profile-section pv-accomplishments-section artdeco-container-card ember-view") document
  end.

(** The title blocks of a container, each with its parent. *)
Definition title_blocks (accomp_tag : node) : list (node * node) :=
  Soup.find_all_with_parent (Soup.class_ "pv-accomplishments-block__title") accomp_tag.

(** A title block carries one of the two titles of a getter. *)
Definition titled (k : accomplishment) (section : node) : bool :=
  Py.str_eq (Soup.string_of section) (labels k).1
  || Py.str_eq (Soup.string_of section) (labels k).2.

(** The direct texts of the list items below an element. *)
Definition block_items (parent : node) : list value :=
  map (fun item => Py.str_value (Soup.string_of item))
      (Soup.find_all (Soup.class_ "pv-accomplishments-block__summary-list-item") parent).

(** A Languages block and a Projects block, the container that holds
    them, and the page around it. *)
Definition languages_title : node :=
  Tag "h3" {[ "class" := AList ["pv-accomplishments-block__title"] ]} [Str "Languages"].

Definition languages_block : node :=
  Tag "div" ∅
    [languages_title;
     Tag "ul" ∅
       [Tag "li" {[ "class" := AList ["pv-accomplishments-block__summary-list-item"] ]}
          [Str "English"];
        Tag "li" {[ "class" := AList ["pv-accomplishments-block__summary-list-item"] ]}
          [Str "French"]]].

Definition projects_title : node :=
  Tag "h3" {[ "class" := AList ["pv-accomplishments-block__title"] ]} [Str "Projects"].

Definition projects_block : node :=
  Tag "div" ∅
    [projects_title;
     Tag "ul" ∅
       [Tag "li" {[ "class" := AList ["pv-accomplishments-block__summary-list-item"] ]}
          [Str "Compiler"]]].

Definition accomplishments_section : node :=
  Tag "section" {[ "class" := AList ["pv-profile-section"; "artdeco-container-card";
                                     "pv-accomplishments-section"; "ember-view"] ]}
    [languages_block; projects_block].

Definition page_accomplishments : node :=
  Tag "[document]" ∅ [ Tag "html" ∅ [ Tag "body" ∅ [ accomplishments_section ]]].

(** A list that does not begin with whitespace. *)
Definition no_leading_space (l : list ascii) : Prop :=
  match l with
  | c :: _ => Text.isspace_char c = false
  | [] => True
  end.

(** The characters [strip] keeps. *)
Definition strip_chars (l : list ascii) : list ascii :=
  rev (Text.lstrip_chars (rev (Text.lstrip_chars l))).

(** The one-character string made of the superscript two, U+00B2. *)
Definition superscript_two : string := String (Text.chr 178) "".

(** A fragment that [isdigit] accepts and [int] rejects. *)
Definition rejected_by_int (fragment : string) : bool :=
  Text.isdigit fragment && Py.is_None (Text.int fragment).

(** A character that [isdigit] accepts and [int] rejects. *)
Definition rejected_char (c : ascii) : bool :=
  Text.isdigit_char c && Py.is_None (Text.int_char c).

(** A page whose connections element reads as a superscript two. *)
Definition page_superscript_connections : node :=
  Tag "[document]" ∅ [
    Tag "html" ∅ [ Tag "body" ∅ [
      Tag "span" {[ "class" := AList ["member-connections"] ]} [Str superscript_two] ]]].

(** A page whose media subheadline ends in a superscript two. *)
Definition page_superscript_media : node :=
  Tag "[document]" ∅ [
    Tag "html" ∅ [ Tag "body" ∅ [
      Tag "h3" {[ "class" := AList ["pv-treasury-carousel__subheadline"] ]}
        [Str ("Media 3" ++ superscript_two)] ]]].



(** ** Properties of the decorator *)

Lemma cache_var_inj a b : cache_var a = cache_var b -> a = b.
Proof. destruct a, b; simpl; intros H; try reflexivity; discriminate H. Qed.

Lemma cache_hit cv f s v :
  dict s !! cv = Some v -> cache cv f s = (s, Ok v).
Proof.
  intros H. unfold cache, _custom_cacher, wrapper, hasattr, getattr.
  rewrite H. reflexivity.
Qed.

Lemma cache_miss cv f s :
  dict s !! cv = None ->
  cache cv f s =
    match f (entered cv s) with
    | (s', Ok v) => (setattr s' cv v, Ok v)
    | (s', Err e) => (s', Err e)
    end.
Proof.
  intros H. unfold cache, _custom_cacher, wrapper, hasattr, getattr.
  rewrite H. simpl.
  destruct (f (entered cv s)) as [s' [v|e]]; [|reflexivity].
  simpl. rewrite lookup_insert_eq. reflexivity.
Qed.

Lemma runs_entered_eq a s : runs a (entered (cache_var a) s) = S (runs a s).
Proof. unfold runs, entered. simpl. rewrite String.eqb_refl. reflexivity. Qed.

Lemma runs_entered_ne a b s : a <> b -> runs b (entered (cache_var a) s) = runs b s.
Proof.
  intros Hne. unfold runs, entered. simpl.
  destruct (String.eqb_spec (cache_var b) (cache_var a)) as [E|E]; [|reflexivity].
  apply cache_var_inj in E. congruence.
Qed.

Lemma same_at_refl a s : same_at a s s.
Proof. repeat split. Qed.

Lemma same_at_trans a s1 s2 s3 : same_at a s1 s2 -> same_at a s2 s3 -> same_at a s1 s3.
Proof. unfold same_at. intros (?&?&?) (?&?&?). repeat split; congruence. Qed.

Lemma same_at_entered a b s : a <> b -> same_at b s (entered (cache_var a) s).
Proof. intros Hne. repeat split. simpl. apply runs_entered_ne, Hne. Qed.

Lemma same_at_setattr a b s v : a <> b -> same_at b s (setattr s (cache_var a) v).
Proof.
  intros Hne. repeat split. simpl. apply lookup_insert_ne.
  intros E. apply cache_var_inj in E. congruence.
Qed.

Lemma consistent_at_same a s s' : same_at a s s' -> consistent_at a s -> consistent_at a s'.
Proof. unfold same_at, consistent_at. intros (-> & -> & ->). trivial. Qed.

Lemma consistent_new document : consistent (__init__ document).
Proof. intros a. unfold consistent_at. simpl. rewrite lookup_empty. left. reflexivity. Qed.

(** *** One access to an accessor whose body only reads the document *)

Section PureGetter.
Variable a : accessor.
Variable body : Profile -> flow unit.
Hypothesis getter_a : getter a = cache (cache_var a) (def (reads body)).
Hypothesis body_reads_soup : forall s s', soup s = soup s' -> body s = body s'.

Lemma pure_outcome document : outcome a document = call_result (body (__init__ document)).
Proof.
  unfold outcome. rewrite getter_a, cache_miss by apply lookup_empty.
  unfold def, reads.
  rewrite (body_reads_soup (entered (cache_var a) (__init__ document)) (__init__ document))
    by reflexivity.
  destruct (call_result (body (__init__ document))); reflexivity.
Qed.

Lemma pure_outcome_at s : outcome a (soup s) = call_result (body s).
Proof. rewrite pure_outcome. f_equal. apply body_reads_soup. reflexivity. Qed.

Lemma pure_step s :
  consistent_at a s ->
  (getter a s).2 = outcome a (soup s)
  /\ soup (getter a s).1 = soup s
  /\ consistent_at a (getter a s).1
  /\ forall b, a <> b -> same_at b s (getter a s).1.
Proof.
  intros Hc. unfold consistent_at in Hc.
  destruct (dict s !! cache_var a) as [v|] eqn:Hd.
  - rewrite getter_a, (cache_hit _ _ _ _ Hd). simpl.
    destruct Hc as [Ho Hr]. repeat split; auto.
    unfold consistent_at. rewrite Hd. auto.
  - rewrite getter_a, (cache_miss _ _ _ Hd). unfold def, reads.
    rewrite (body_reads_soup (entered (cache_var a) s) s) by reflexivity.
    rewrite pure_outcome_at in *.
    destruct (call_result (body s)) as [v|e] eqn:Hb; simpl.
    + repeat split.
      * unfold consistent_at. simpl. rewrite lookup_insert_eq.
        split; [rewrite pure_outcome_at; exact Hb|].
        change (runs a (entered (cache_var a) s) = 1%nat).
        rewrite runs_entered_eq.
        destruct Hc as [->|[e He]]; [reflexivity|discriminate He].
      * simpl. apply lookup_insert_ne. intros E. apply cache_var_inj in E. congruence.
      * change (runs b (entered (cache_var a) s) = runs b s).
        apply runs_entered_ne. assumption.
    + repeat split.
      * unfold consistent_at. simpl. rewrite Hd. right. exists e.
        rewrite pure_outcome_at. exact Hb.
      * change (runs b (entered (cache_var a) s) = runs b s).
        apply runs_entered_ne. assumption.
Qed.

End PureGetter.

Lemma pure_body_getter a body :
  pure_body a = Some body -> getter a = cache (cache_var a) (def (reads body)).
Proof. destruct a; simpl; intros H; inversion H; reflexivity. Qed.

Ltac reads_soup_only f :=
  let s := fresh "s" in let s' := fresh "s'" in let H := fresh "H" in
  intros s s' H; unfold f; rewrite H; reflexivity.

Lemma def_name_reads_soup s s' : soup s = soup s' -> Methods.def_name s = Methods.def_name s'.
Proof. revert s s'. reads_soup_only Methods.def_name. Qed.

Lemma def_skills_reads_soup s s' : soup s = soup s' -> Methods.def_skills s = Methods.def_skills s'.
Proof. revert s s'. reads_soup_only Methods.def_skills. Qed.

Lemma def_username_reads_soup s s' :
  soup s = soup s' -> Methods.def_username s = Methods.def_username s'.
Proof. revert s s'. reads_soup_only Methods.def_username. Qed.

Lemma def_location_reads_soup s s' :
  soup s = soup s' -> Methods.def_location s = Methods.def_location s'.
Proof. revert s s'. reads_soup_only Methods.def_location. Qed.

Lemma def_all_companies_reads_soup s s' :
  soup s = soup s' -> Methods.def_all_companies s = Methods.def_all_companies s'.
Proof. revert s s'. reads_soup_only Methods.def_all_companies. Qed.

Lemma def_connection_count_reads_soup s s' :
  soup s = soup s' -> Methods.def_connection_count s = Methods.def_connection_count s'.
Proof. revert s s'. reads_soup_only Methods.def_connection_count. Qed.

Lemma def_get_media_number_reads_soup s s' :
  soup s = soup s' -> Methods.def_get_media_number s = Methods.def_get_media_number s'.
Proof. revert s s'. reads_soup_only Methods.def_get_media_number. Qed.

Lemma accomplishments_reads_soup l1 l2 s s' :
  soup s = soup s' -> Methods.accomplishments l1 l2 s = Methods.accomplishments l1 l2 s'.
Proof. revert s s'. reads_soup_only Methods.accomplishments. Qed.

Lemma pure_body_reads_soup a body s s' :
  pure_body a = Some body -> soup s = soup s' -> body s = body s'.
Proof.
  destruct a; simpl; intros H; inversion H; subst;
    auto using def_name_reads_soup, def_skills_reads_soup, def_username_reads_soup,
      def_location_reads_soup, def_all_companies_reads_soup,
      def_connection_count_reads_soup.
Qed.

(** *** One access to [current_company] *)

Lemma def_current_company_run s :
  soup (Methods.all_companies s).1 = soup s ->
  def Methods.def_current_company s =
    (if Py.is_not_None (Soup.find (Soup.attrs_ "data-section" "currentPositionsDetails") (soup s))
     then s else (Methods.all_companies s).1,
     current_company_result (soup s) (Methods.all_companies s).2).
Proof.
  intros Hsoup.
  unfold def, Methods.def_current_company, current_company_result,
    mbind, M_bind, self_soup, pure, access, mret, M_ret.
  destruct (Soup.find (Soup.attrs_ "data-section" "currentPositionsDetails") (soup s))
    as [company_tag|]; simpl.
  - destruct (Soup.find (Soup.class_ "org") company_tag); reflexivity.
  - destruct (Methods.all_companies s) as [s' [companies|e]]; simpl in *; [|reflexivity].
    destruct (Py.len companies) as [n| |]; simpl; [|reflexivity|reflexivity].
    destruct (n =? 0)%Z; simpl.
    + rewrite Hsoup.
      destruct (Soup.find (Soup.class_ "headline title") (soup s)); reflexivity.
    + destruct (Py.first companies); reflexivity.
Qed.

Lemma getter_hit a s v : dict s !! cache_var a = Some v -> getter a s = (s, Ok v).
Proof. intros H. destruct a; apply cache_hit, H. Qed.

Lemma all_companies_step s :
  consistent_at AllCompanies s ->
  (Methods.all_companies s).2 = outcome AllCompanies (soup s)
  /\ soup (Methods.all_companies s).1 = soup s
  /\ consistent_at AllCompanies (Methods.all_companies s).1
  /\ forall b, AllCompanies <> b -> same_at b s (Methods.all_companies s).1.
Proof.
  apply (pure_step AllCompanies Methods.def_all_companies eq_refl
           def_all_companies_reads_soup).
Qed.

Lemma current_company_outcome document :
  outcome CurrentCompany document =
  current_company_result document (outcome AllCompanies document).
Proof.
  unfold outcome at 1. simpl. unfold Methods.current_company, property.
  rewrite cache_miss by apply lookup_empty.
  set (s0 := entered "__current_company" (__init__ document)).
  assert (Hc : consistent_at AllCompanies s0).
  { apply (consistent_at_same _ (__init__ document)).
    - apply (same_at_entered CurrentCompany). discriminate.
    - apply consistent_new. }
  destruct (all_companies_step s0 Hc) as (Hr & Hs & _).
  rewrite (def_current_company_run s0 Hs), Hr. simpl.
  destruct (current_company_result document (outcome AllCompanies document)); reflexivity.
Qed.

Lemma current_company_step s :
  consistent_at CurrentCompany s ->
  consistent_at AllCompanies s ->
  let s' := (Methods.current_company s).1 in
  (Methods.current_company s).2 = outcome CurrentCompany (soup s)
  /\ soup s' = soup s
  /\ consistent_at CurrentCompany s'
  /\ consistent_at AllCompanies s'
  /\ (forall v, dict s !! cache_var AllCompanies = Some v ->
                dict s' !! cache_var AllCompanies = Some v)
  /\ forall b, CurrentCompany <> b -> AllCompanies <> b -> same_at b s s'.
Proof.
  intros Hcc Hac. unfold consistent_at in Hcc.
  destruct (dict s !! cache_var CurrentCompany) as [v|] eqn:Hd.
  - change Methods.current_company with (getter CurrentCompany).
    rewrite (getter_hit _ _ _ Hd). simpl. destruct Hcc as [Ho Hr].
    repeat split; auto.
    unfold consistent_at. rewrite Hd. auto.
  - unfold Methods.current_company, property.
    rewrite (cache_miss _ _ _ Hd).
    set (s1 := entered (cache_var CurrentCompany) s).
    assert (H1 : forall b, CurrentCompany <> b -> same_at b s s1)
      by (intros b Hb; apply (same_at_entered CurrentCompany), Hb).
    assert (Hac1 : consistent_at AllCompanies s1)
      by (apply (consistent_at_same _ s); [apply H1; discriminate|exact Hac]).
    destruct (all_companies_step s1 Hac1) as (Hr & Hs & Hac2 & Hsame).
    rewrite (def_current_company_run s1 Hs), Hr.
    change (soup s1) with (soup s). rewrite <- current_company_outcome.
    set (sx := if Py.is_not_None _ then s1 else (Methods.all_companies s1).1).
    assert (Hx : forall b, AllCompanies <> b -> same_at b s1 sx).
    { intros b Hb. unfold sx. destruct (Py.is_not_None _);
        [apply same_at_refl|apply Hsame, Hb]. }
    assert (Hacx : consistent_at AllCompanies sx).
    { unfold sx. destruct (Py.is_not_None _); assumption. }
    assert (Hsx : soup sx = soup s).
    { unfold sx. destruct (Py.is_not_None _); [reflexivity|exact Hs]. }
    assert (Hpx : forall v, dict s !! cache_var AllCompanies = Some v ->
                            dict sx !! cache_var AllCompanies = Some v).
    { intros v Hv. unfold sx. destruct (Py.is_not_None _); [exact Hv|].
      change Methods.all_companies with (getter AllCompanies).
      rewrite (getter_hit AllCompanies s1 v Hv). exact Hv. }
    destruct (Hx CurrentCompany ltac:(discriminate)) as (Hdx & Hrx & _).
    destruct (outcome CurrentCompany (soup s)) as [v|e] eqn:Ho; simpl.
    + refine (conj eq_refl (conj Hsx (conj _ (conj _ (conj _ _))))).
      * unfold consistent_at. simpl. rewrite lookup_insert_eq, Hsx.
        split; [exact Ho|].
        change (runs CurrentCompany sx = 1%nat). rewrite Hrx.
        unfold s1. rewrite (runs_entered_eq CurrentCompany).
        destruct Hcc as [->|[e He]]; [reflexivity|discriminate He].
      * apply (consistent_at_same _ sx); [|exact Hacx].
        apply (same_at_setattr CurrentCompany). discriminate.
      * intros w Hw. simpl. rewrite lookup_insert_ne by (simpl; discriminate). auto.
      * intros b Hb1 Hb2.
        apply (same_at_trans _ s s1); [auto|].
        apply (same_at_trans _ s1 sx); [auto|].
        apply (same_at_setattr CurrentCompany), Hb1.
    + refine (conj eq_refl (conj Hsx (conj _ (conj Hacx (conj Hpx _))))).
      * unfold consistent_at. rewrite Hdx.
        change (dict s1) with (dict s). rewrite Hd, Hsx. right. eauto.
      * intros b Hb1 Hb2. apply (same_at_trans _ s s1); [auto|]. apply Hx; assumption.
Qed.

(** *** Any access, on any consistent instance *)

(** A successful access leaves its value in the instance dictionary,
    whatever function is wrapped. *)
Lemma cache_stores cv f s v :
  (cache cv f s).2 = Ok v -> dict (cache cv f s).1 !! cv = Some v.
Proof.
  destruct (dict s !! cv) as [w|] eqn:Hd.
  - rewrite (cache_hit _ _ _ _ Hd). simpl. intros [= ->]. exact Hd.
  - rewrite (cache_miss _ _ _ Hd).
    destruct (f (entered cv s)) as [s' [w|e]]; simpl; [|discriminate].
    intros [= ->]. apply lookup_insert_eq.
Qed.

Lemma getter_stores a s v :
  (getter a s).2 = Ok v -> dict (getter a s).1 !! cache_var a = Some v.
Proof. destruct a; apply cache_stores. Qed.

Lemma getter_step a s :
  consistent s ->
  (getter a s).2 = outcome a (soup s)
  /\ soup (getter a s).1 = soup s
  /\ consistent (getter a s).1
  /\ forall b v, dict s !! cache_var b = Some v ->
                 dict (getter a s).1 !! cache_var b = Some v.
Proof.
  intros Hc.
  assert (Hhit : forall v, dict s !! cache_var a = Some v ->
                           dict (getter a s).1 !! cache_var a = Some v).
  { intros v Hv. rewrite (getter_hit a s v Hv). exact Hv. }
  destruct (pure_body a) as [body|] eqn:Hb.
  - destruct (pure_step a body (pure_body_getter a body Hb)
                (fun s s' => pure_body_reads_soup a body s s' Hb) s (Hc a))
      as (Hr & Hs & Ha & Hsame).
    refine (conj Hr (conj Hs (conj _ _))).
    + intros b. destruct (decide (a = b)) as [<-|Hne]; [exact Ha|].
      apply (consistent_at_same b s); [apply Hsame, Hne|apply Hc].
    + intros b v Hv. destruct (decide (a = b)) as [<-|Hne]; [auto|].
      destruct (Hsame b Hne) as (-> & _). exact Hv.
  - assert (a = CurrentCompany) as -> by (destruct a; simpl in Hb; congruence).
    destruct (current_company_step s (Hc _) (Hc _)) as (Hr & Hs & Hcc & Hac & Hp & Hsame).
    refine (conj Hr (conj Hs (conj _ _))).
    + intros b.
      destruct (decide (CurrentCompany = b)) as [<-|Hne1]; [exact Hcc|].
      destruct (decide (AllCompanies = b)) as [<-|Hne2]; [exact Hac|].
      apply (consistent_at_same b s); [apply Hsame; assumption|apply Hc].
    + intros b v Hv.
      destruct (decide (CurrentCompany = b)) as [<-|Hne1]; [auto|].
      destruct (decide (AllCompanies = b)) as [<-|Hne2]; [auto|].
      destruct (Hsame b Hne1 Hne2) as (E & _).
      simpl getter. rewrite E. exact Hv.
Qed.

Lemma reachable_consistent s : reachable s -> consistent s.
Proof.
  induction 1 as [document|a s _ IH].
  - apply consistent_new.
  - apply (getter_step a s IH).
Qed.

Lemma access_all_step l s :
  consistent s ->
  consistent (access_all l s)
  /\ soup (access_all l s) = soup s
  /\ forall b v, dict s !! cache_var b = Some v ->
                 dict (access_all l s) !! cache_var b = Some v.
Proof.
  revert s. induction l as [|a l IH]; intros s Hc; simpl.
  - auto.
  - destruct (getter_step a s Hc) as (_ & Hs & Hc' & Hp).
    destruct (IH _ Hc') as (Hc'' & Hs' & Hp').
    refine (conj Hc'' (conj _ _)); [congruence|auto].
Qed.

(** On a reachable instance an accessor yields what it yields on a new
    instance of the same document. *)
Lemma getter_reachable a s : reachable s -> (getter a s).2 = outcome a (soup s).
Proof. intros H. apply getter_step, reachable_consistent, H. Qed.

(** On a reachable instance, an accessor whose body only reads the
    document yields what its body computes. *)
Lemma pure_getter_reachable a body s :
  pure_body a = Some body -> reachable s -> (getter a s).2 = call_result (body s).
Proof.
  intros Hb Hr. rewrite (getter_reachable a s Hr).
  apply (pure_outcome_at a body (pure_body_getter a body Hb)).
  intros s1 s2. apply (pure_body_reads_soup a body s1 s2 Hb).
Qed.

Lemma fold_left_snoc_map {A B} (f : A -> B) (l : list A) (acc : list B) :
  fold_left (fun acc x => acc ++ [f x]) l acc = acc ++ map f l.
Proof.
  revert acc. induction l as [|x l IH]; intros acc; simpl.
  - symmetry. apply app_nil_r.
  - rewrite IH, <- app_assoc. reflexivity.
Qed.

(** ** The name accessor *)

(** C1. The name accessor returns the direct text of the first element of
    the composite class "pv-top-card-section__name Sans-26px-black-85%" when
    there is one; only otherwise that of the first element with id "name";
    and with neither it raises the TypeError "Name not found in profile
    HTML" instead of returning a value. *)
Theorem name_lookup_order (self : Profile) :
  reachable self ->
  (Methods.name self).2 =
    match Soup.find primary_name (soup self) with
    | Some name => Ok (Py.str_value (Soup.string_of name))
    | None =>
        match Soup.find (Soup.id_ "name") (soup self) with
        | Some name => Ok (Py.str_value (Soup.string_of name))
        | None => Err (TypeError "Name not found in profile HTML")
        end
    end.
Proof.
  intros Hr. change Methods.name with (getter Name).
  rewrite (pure_getter_reachable Name Methods.def_name self eq_refl Hr).
  unfold Methods.def_name, primary_name.
  destruct (Soup.find (Soup.class_ _) (soup self)) as [name|]; simpl.
  - reflexivity.
  - destruct (Soup.find (Soup.id_ "name") (soup self)) as [name|]; reflexivity.
Qed.

Lemma name_lookup_order_witness :
  reachable (Methods.skills (__init__ page_full)).1
  /\ (Methods.name (Methods.skills (__init__ page_full)).1).2 = Ok (VStr "Ann Lee").
Proof.
  split.
  - apply (reach_get Skills), reach_new.
  - etransitivity.
    + apply name_lookup_order, (reach_get Skills), reach_new.
    + vm_compute. reflexivity.
Defined.

(** C9. When the first element of the primary name class exists but has
    no single direct text, the name accessor returns None: it neither
    raises the required-field error nor looks for the element with id
    "name". *)
Theorem name_without_text_is_None (self : Profile) (name : node) :
  reachable self ->
  Soup.find primary_name (soup self) = Some name ->
  Soup.string_of name = None ->
  (Methods.name self).2 = Ok VNone.
Proof.
  intros Hr Hfind Hstring. change Methods.name with (getter Name).
  rewrite (pure_getter_reachable Name Methods.def_name self eq_refl Hr).
  unfold Methods.def_name. fold primary_name. rewrite Hfind. simpl.
  rewrite Hstring. reflexivity.
Qed.

Lemma name_without_text_is_None_witness :
  reachable (__init__ page_nested_name)
  /\ Soup.find primary_name (soup (__init__ page_nested_name))
     = Some (Tag "h1" {[ "class" := AList ["pv-top-card-section__name"; "Sans-26px-black-85%"] ]}
               [Tag "span" ∅ [Str "Ann"]; Tag "span" ∅ [Str "Lee"]])
  /\ Soup.find (Soup.id_ "name") (soup (__init__ page_nested_name))
     = Some (Tag "span" {[ "id" := AStr "name" ]} [Str "Ann Lee"])
  /\ (Methods.name (__init__ page_nested_name)).2 = Ok VNone.
Proof.
  split; [apply reach_new|].
  split; [vm_compute; reflexivity|].
  split; [vm_compute; reflexivity|].
  apply (name_without_text_is_None (__init__ page_nested_name)
           (Tag "h1" {[ "class" := AList ["pv-top-card-section__name"; "Sans-26px-black-85%"] ]}
              [Tag "span" ∅ [Str "Ann"]; Tag "span" ∅ [Str "Lee"]])).
  - apply reach_new.
  - vm_compute. reflexivity.
  - reflexivity.
Defined.

(** ** The certification getter *)

(** C7. Whatever the document, get_certification returns the constant 0
    and leaves the instance as it is; the scan of the accomplishments
    container that follows the return statement is not executed (on a
    document without that container the scan would raise). *)
Theorem get_certification_constant (self : Profile) :
  Methods.get_certification self = (self, Ok (VInt 0))
  /\ call_result (Methods.accomplishments "Certification" "Certifications" (__init__ page_bare))
     = Err AttributeError.
Proof. split; [reflexivity|vm_compute; reflexivity]. Qed.

(** ** The media number *)

Lemma media_loop_scan (characters : list ascii) (media_num : Z) :
  Methods.media_loop characters media_num =
    if existsb rejected_char characters then Raise ValueError
    else Next (fold_left (fun value c => value * 10 + (Z.of_N (Text.code c) - 48))
                         (List.filter Text.isdecimal_char characters) media_num).
Proof.
  revert media_num. induction characters as [|c cs IH]; intros media_num; simpl.
  - reflexivity.
  - unfold rejected_char at 1, Py.int_character, Text.int_char, Text.isdigit_char.
    destruct (Text.isdecimal_char c); simpl.
    + apply IH.
    + destruct ((Text.code c =? 178)%N || (Text.code c =? 179)%N || (Text.code c =? 185)%N);
        simpl; [reflexivity|apply IH].
Qed.

(** C8. On a page whose media subheadline reads "Media 3" followed by a
    superscript two, get_media_number raises a ValueError: isdigit()
    accepts the superscript and int() rejects it.  The claim has the
    function return the number folded over the digit characters for every
    document with such a text. *)
Theorem get_media_number_raises_on_superscript :
  Soup.find (Soup.class_ "pv-treasury-carousel__subheadline") page_superscript_media
    = Some (Tag "h3" {[ "class" := AList ["pv-treasury-carousel__subheadline"] ]}
              [Str ("Media 3" ++ superscript_two)])
  /\ Text.isdigit_char (Text.chr 178) = true
  /\ Text.int_char (Text.chr 178) = None
  /\ Methods.get_media_number (__init__ page_superscript_media)
     = (__init__ page_superscript_media, Err ValueError).
Proof. repeat split; vm_compute; reflexivity. Qed.

(** ** The connection count *)

Lemma connections_loop_scan (strings : list string) (cons : Z) :
  Methods.connections_loop strings cons =
    if existsb rejected_by_int strings then Raise ValueError
    else Next (default cons (last (omap fragment_value strings))).
Proof.
  revert cons. induction strings as [|s l IH]; intros cons.
  - reflexivity.
  - assert (E : omap fragment_value (s :: l) =
                match fragment_value s with
                | Some z => z :: omap fragment_value l
                | None => omap fragment_value l
                end) by reflexivity.
    rewrite E. cbn [Methods.connections_loop existsb].
    unfold rejected_by_int at 1, fragment_value at 1, Py.int_str.
    destruct (Text.isdigit s); [destruct (Text.int s) as [z|]|]; simpl.
    + rewrite IH. destruct (existsb rejected_by_int l); [reflexivity|].
      rewrite last_cons. destruct (last (omap fragment_value l)); reflexivity.
    + reflexivity.
    + destruct (String.eqb s "500+"); rewrite IH;
        destruct (existsb rejected_by_int l); try reflexivity.
      rewrite last_cons. destruct (last (omap fragment_value l)); reflexivity.
Qed.

(** C6. On a page whose connections element holds the single text
    fragment made of a superscript two, connection_count raises a
    ValueError: isdigit() accepts the fragment and int() rejects it.  The
    claim has the function return an integer (0 when no fragment matches)
    for every document with a connections element. *)
Theorem connection_count_raises_on_superscript :
  Soup.find (Soup.class_ "member-connections") page_superscript_connections
    = Some (Tag "span" {[ "class" := AList ["member-connections"] ]} [Str superscript_two])
  /\ Text.isdigit superscript_two = true
  /\ Text.int superscript_two = None
  /\ (Methods.connection_count (__init__ page_superscript_connections)).2 = Err ValueError.
Proof. repeat split; vm_compute; reflexivity. Qed.

(** ** Missing structure: the accomplishment getters and username *)

Lemma accomplishments_without_container l1 l2 self :
  Soup.find accomplishments_class_1 (soup self) = None ->
  Soup.find accomplishments_class_2 (soup self) = None ->
  Methods.accomplishments l1 l2 self = Raise AttributeError.
Proof.
  intros H1 H2. unfold Methods.accomplishments.
  fold accomplishments_class_1 accomplishments_class_2.
  rewrite H1. simpl. rewrite H2. reflexivity.
Qed.

(** C4. On a document with no element of either spelling of the
    accomplishments container class, get_languages, get_courses,
    get_awards, get_organizations and get_projects each raise an
    AttributeError (none returns a list); on a document with no canonical
    link element, username raises an IndexError (it does not return None). *)
Theorem missing_structure_raises (self : Profile) :
  reachable self ->
  (Soup.find accomplishments_class_1 (soup self) = None ->
   Soup.find accomplishments_class_2 (soup self) = None ->
   Methods.get_languages self = (self, Err AttributeError)
   /\ Methods.get_courses self = (self, Err AttributeError)
   /\ Methods.get_awards self = (self, Err AttributeError)
   /\ Methods.get_organizations self = (self, Err AttributeError)
   /\ Methods.get_projects self = (self, Err AttributeError))
  /\ (Soup.find_all canonical_link (soup self) = [] ->
      (Methods.username self).2 = Err IndexError).
Proof.
  intros Hr. split.
  - intros H1 H2.
    unfold Methods.get_languages, Methods.get_courses, Methods.get_awards,
      Methods.get_organizations, Methods.get_projects, def, reads,
      Methods.def_get_languages, Methods.def_get_courses, Methods.def_get_awards,
      Methods.def_get_organizations, Methods.def_get_projects.
    rewrite !(accomplishments_without_container _ _ self H1 H2).
    repeat split; reflexivity.
  - intros Hlinks. change Methods.username with (getter Username).
    rewrite (pure_getter_reachable Username Methods.def_username self eq_refl Hr).
    unfold Methods.def_username. fold canonical_link. rewrite Hlinks. reflexivity.
Qed.

Lemma missing_structure_raises_witness :
  reachable (__init__ page_bare)
  /\ Soup.find accomplishments_class_1 (soup (__init__ page_bare)) = None
  /\ Soup.find accomplishments_class_2 (soup (__init__ page_bare)) = None
  /\ Soup.find_all canonical_link (soup (__init__ page_bare)) = []
  /\ Methods.get_languages (__init__ page_bare) = (__init__ page_bare, Err AttributeError)
  /\ Methods.get_projects (__init__ page_bare) = (__init__ page_bare, Err AttributeError)
  /\ (Methods.username (__init__ page_bare)).2 = Err IndexError.
Proof.
  assert (H1 : Soup.find accomplishments_class_1 (soup (__init__ page_bare)) = None)
    by (vm_compute; reflexivity).
  assert (H2 : Soup.find accomplishments_class_2 (soup (__init__ page_bare)) = None)
    by (vm_compute; reflexivity).
  assert (H3 : Soup.find_all canonical_link (soup (__init__ page_bare)) = [])
    by (vm_compute; reflexivity).
  destruct (missing_structure_raises (__init__ page_bare) (reach_new page_bare))
    as [Hget Huser].
  destruct (Hget H1 H2) as (Hl & _ & _ & _ & Hp).
  split; [apply reach_new|].
  repeat (split; [assumption|]).
  apply Huser, H3.
Defined.

(** ** The current company *)

(** C10. When the document has an element with attribute
    data-section="currentPositionsDetails" and the first such element has
    no descendant of class "org", current_company raises an AttributeError;
    it does not go on to all_companies, the headline or None. *)
Theorem current_company_without_org_raises (self : Profile) (company_tag : node) :
  reachable self ->
  Soup.find current_positions (soup self) = Some company_tag ->
  Soup.find (Soup.class_ "org") company_tag = None ->
  (Methods.current_company self).2 = Err AttributeError.
Proof.
  intros Hr Htag Horg. change Methods.current_company with (getter CurrentCompany).
  rewrite (getter_reachable CurrentCompany self Hr), current_company_outcome.
  unfold current_company_result. fold current_positions.
  rewrite Htag, Horg. reflexivity.
Qed.

Lemma current_company_without_org_raises_witness :
  reachable (__init__ page_position_without_org)
  /\ Soup.find current_positions (soup (__init__ page_position_without_org))
     = Some (Tag "div" {[ "data-section" := AStr "currentPositionsDetails" ]}
               [Tag "span" {[ "class" := AList ["title"] ]} [Str "Engineer"]])
  /\ Soup.find (Soup.class_ "org")
       (Tag "div" {[ "data-section" := AStr "currentPositionsDetails" ]}
          [Tag "span" {[ "class" := AList ["title"] ]} [Str "Engineer"]]) = None
  /\ (Methods.all_companies (__init__ page_position_without_org)).2 = Ok (VList [VStr "Acme"])
  /\ (Methods.current_company (__init__ page_position_without_org)).2 = Err AttributeError.
Proof.
  split; [apply reach_new|].
  split; [vm_compute; reflexivity|].
  split; [vm_compute; reflexivity|].
  split; [vm_compute; reflexivity|].
  apply (current_company_without_org_raises (__init__ page_position_without_org)
           (Tag "div" {[ "data-section" := AStr "currentPositionsDetails" ]}
              [Tag "span" {[ "class" := AList ["title"] ]} [Str "Engineer"]])).
  - apply reach_new.
  - vm_compute. reflexivity.
  - vm_compute. reflexivity.
Defined.

(** ** Skills *)

Lemma skills_loop_kept (skills_html : list node) (skills_array : list value)
  (texts : list string) :
  mapM Soup.string_of (List.filter (fun skill => negb (skipped skill)) skills_html)
    = Some texts ->
  Methods.skills_loop skills_html skills_array
    = Next (skills_array ++ map sanitized texts).
Proof.
  revert skills_array texts.
  induction skills_html as [|skill l IH]; intros skills_array texts; simpl.
  - intros [= <-]. simpl. rewrite app_nil_r. reflexivity.
  - unfold skipped at 1.
    destruct (bool_decide (Some "see-more" ∈ _)); simpl; [apply IH|].
    destruct (bool_decide (Some "see-less" ∈ _)); simpl; [apply IH|].
    destruct (bool_decide (Soup.find_all _ skill = [])); simpl; [|apply IH].
    destruct (Soup.string_of skill) as [t|]; simpl; [|discriminate].
    destruct (mapM Soup.string_of _) as [texts'|] eqn:Hrest; simpl; [|discriminate].
    intros [= <-]. rewrite (IH _ texts' eq_refl), <- app_assoc. reflexivity.
Qed.




(** ** The current company: which alternative is returned *)

Lemma all_companies_outcome document :
  outcome AllCompanies document = Ok (VList (companies_of document)).
Proof.
  rewrite (pure_outcome AllCompanies Methods.def_all_companies eq_refl
             def_all_companies_reads_soup).
  unfold Methods.def_all_companies, companies_of. simpl.
  destruct (Soup.find _ document) as [experience_tag|]; simpl; [|reflexivity].
  rewrite (fold_left_snoc_map (fun company => Py.str_value (Soup.string_of company))).
  reflexivity.
Qed.

(** C3, as the code has it.  On a document whose first element with
    attribute data-section="currentPositionsDetails", if there is one,
    holds an element of class "org", current_company selects by the
    presence of the element, not by its text: with such a section the
    result is the direct text of the first "org" element inside the first
    section, None when that element has no single direct text; without
    such a section the result is the first entry of what all_companies
    yields on this instance when that list is not empty, else the direct
    text of the first "headline title" element when there is one, else
    None. *)
Theorem current_company_by_presence (self : Profile) :
  reachable self ->
  (forall company_tag,
      Soup.find current_positions (soup self) = Some company_tag ->
      is_Some (Soup.find (Soup.class_ "org") company_tag)) ->
  exists companies,
    (Methods.all_companies self).2 = Ok (VList companies)
    /\ (Methods.current_company self).2
       = Ok (selected_by_presence (soup self) companies).
Proof.
  intros Hr Horg. exists (companies_of (soup self)).
  change Methods.all_companies with (getter AllCompanies).
  change Methods.current_company with (getter CurrentCompany).
  rewrite !(getter_reachable _ self Hr), current_company_outcome, all_companies_outcome.
  split; [reflexivity|].
  unfold current_company_result, selected_by_presence.
  fold current_positions headline_title.
  destruct (Soup.find current_positions (soup self)) as [company_tag|].
  - destruct (Horg company_tag eq_refl) as [org ->]. reflexivity.
  - simpl. destruct (companies_of (soup self)) as [|c l]; simpl; [|reflexivity].
    destruct (Soup.find headline_title (soup self)); reflexivity.
Qed.

Lemma current_company_by_presence_witness :
  reachable (Methods.all_companies (__init__ page_current_position)).1
  /\ (forall company_tag,
         Soup.find current_positions
           (soup (Methods.all_companies (__init__ page_current_position)).1)
           = Some company_tag ->
         is_Some (Soup.find (Soup.class_ "org") company_tag))
  /\ (Methods.current_company (Methods.all_companies (__init__ page_current_position)).1).2
     = Ok (VStr "Acme").
Proof.
  assert (Hr : reachable (Methods.all_companies (__init__ page_current_position)).1)
    by apply (reach_get AllCompanies), reach_new.
  assert (Horg : forall company_tag,
             Soup.find current_positions
               (soup (Methods.all_companies (__init__ page_current_position)).1)
               = Some company_tag ->
             is_Some (Soup.find (Soup.class_ "org") company_tag)).
  { intros company_tag H. vm_compute in H. injection H as <-.
    eexists. vm_compute. reflexivity. }
  split; [exact Hr|]. split; [exact Horg|].
  destruct (current_company_by_presence _ Hr Horg) as (companies & _ & ->).
  vm_compute. reflexivity.
Defined.

(** C3 as stated fails: on a page whose organisation element has no
    single direct text, the first non-empty alternative is the first
    entry of all_companies, but current_company returns None. *)
Lemma current_company_not_first_non_empty :
  (Methods.all_companies (__init__ page_org_markup)).2 = Ok (VList [VStr "Initech"])
  /\ first_non_empty (alternatives page_org_markup [VStr "Initech"]) = VStr "Initech"
  /\ (Methods.current_company (__init__ page_org_markup)).2 = Ok VNone
  /\ (Methods.current_company (__init__ page_org_markup)).2
     <> Ok (first_non_empty (alternatives page_org_markup [VStr "Initech"])).
Proof.
  assert (H : (Methods.current_company (__init__ page_org_markup)).2 = Ok VNone)
    by (vm_compute; reflexivity).
  split; [vm_compute; reflexivity|].
  split; [vm_compute; reflexivity|].
  split; [exact H|].
  rewrite H. vm_compute. discriminate.
Qed.

(** ** Memoization *)

(** C2. For each of name, skills, username, location, current_company,
    all_companies and connection_count, on any instance reached by
    accessor calls in any order: when a call succeeds with a value, the
    value is then stored in the instance dictionary under the accessor's
    cache variable; the next call returns that value and leaves the
    instance untouched; so does every later call, whatever accessors were
    called in between, and so would any function wrapped under the same
    cache variable, which shows that the wrapped body is not run again;
    the accessor's body has then been entered exactly once on this
    instance; and the value is the one a new instance of the same
    document yields. *)
Theorem memoized_accessor_runs_once (a : accessor) (self : Profile) (v : value)
  (later : list accessor) :
  reachable self ->
  (getter a self).2 = Ok v ->
  let self1 := (getter a self).1 in
  let self2 := access_all later self1 in
  dict self1 !! cache_var a = Some v
  /\ getter a self1 = (self1, Ok v)
  /\ dict self2 !! cache_var a = Some v
  /\ getter a self2 = (self2, Ok v)
  /\ (forall func_to_wrap : method,
        cache (cache_var a) func_to_wrap self2 = (self2, Ok v))
  /\ runs a self2 = 1%nat
  /\ outcome a (soup self) = Ok v.
Proof.
  intros Hr Hv self1 self2.
  pose proof (reachable_consistent self Hr) as Hc.
  destruct (getter_step a self Hc) as (Ho & _ & Hc1 & _).
  pose proof (getter_stores a self v Hv) as Hd1. fold self1 in Hd1, Hc1.
  destruct (access_all_step later self1 Hc1) as (Hc2 & _ & Hp).
  pose proof (Hp a v Hd1) as Hd2. fold self2 in Hd2, Hc2.
  refine (conj Hd1 (conj (getter_hit a self1 v Hd1)
            (conj Hd2 (conj (getter_hit a self2 v Hd2) (conj _ (conj _ _)))))).
  - intros func_to_wrap. apply cache_hit, Hd2.
  - specialize (Hc2 a). unfold consistent_at in Hc2. rewrite Hd2 in Hc2. apply Hc2.
  - rewrite <- Ho. exact Hv.
Qed.

Lemma memoized_accessor_runs_once_witness :
  reachable (Methods.name (__init__ page_full)).1
  /\ (getter CurrentCompany (Methods.name (__init__ page_full)).1).2 = Ok (VStr "Acme")
  /\ (let self1 := (getter CurrentCompany (Methods.name (__init__ page_full)).1).1 in
      let self2 := access_all [Skills; AllCompanies; CurrentCompany; Username] self1 in
      dict self1 !! cache_var CurrentCompany = Some (VStr "Acme")
      /\ getter CurrentCompany self1 = (self1, Ok (VStr "Acme"))
      /\ dict self2 !! cache_var CurrentCompany = Some (VStr "Acme")
      /\ getter CurrentCompany self2 = (self2, Ok (VStr "Acme"))
      /\ (forall func_to_wrap : method,
            cache (cache_var CurrentCompany) func_to_wrap self2 = (self2, Ok (VStr "Acme")))
      /\ runs CurrentCompany self2 = 1%nat
      /\ outcome CurrentCompany (soup (Methods.name (__init__ page_full)).1)
         = Ok (VStr "Acme")).
Proof.
  assert (Hr : reachable (Methods.name (__init__ page_full)).1)
    by apply (reach_get Name), reach_new.
  assert (Hv : (getter CurrentCompany (Methods.name (__init__ page_full)).1).2
               = Ok (VStr "Acme")) by (vm_compute; reflexivity).
  split; [exact Hr|]. split; [exact Hv|].
  exact (memoized_accessor_runs_once CurrentCompany _ (VStr "Acme")
           [Skills; AllCompanies; CurrentCompany; Username] Hr Hv).
Defined.

(** * Further properties of the parser *)

(** ** Strings *)

Lemma append_cons (x : ascii) (a b : string) :
  (String x a ++ b)%string = String x (a ++ b).
Proof. reflexivity. Qed.

Lemma append_nil_l (a : string) : ("" ++ a)%string = a.
Proof. reflexivity. Qed.

Lemma chars_append (a b : string) : Text.chars (a ++ b) = (Text.chars a ++ Text.chars b)%list.
Proof.
  induction a as [|c a IH]; [reflexivity|].
  rewrite append_cons. unfold Text.chars in *. simpl. f_equal. exact IH.
Qed.

Lemma append_assoc (a b c : string) : ((a ++ b) ++ c)%string = (a ++ (b ++ c))%string.
Proof.
  induction a as [|x a IH]; [reflexivity|].
  rewrite !append_cons. f_equal. exact IH.
Qed.

Lemma append_nil_r (a : string) : (a ++ "")%string = a.
Proof.
  induction a as [|x a IH]; [reflexivity|].
  rewrite append_cons. f_equal. exact IH.
Qed.

Lemma chars_of_chars (l : list ascii) : Text.chars (Text.of_chars l) = l.
Proof. apply list_ascii_of_string_of_list_ascii. Qed.

Lemma of_chars_chars (s : string) : Text.of_chars (Text.chars s) = s.
Proof. apply string_of_list_ascii_of_string. Qed.

(** ** The biography *)

Lemma bio_loop_before (before rest : list string) (bio : string) :
  "See more" ∉ before ->
  Methods.bio_loop (before ++ rest) bio
  = Methods.bio_loop rest (bio ++ joined before).
Proof.
  revert bio. induction before as [|s l IH]; intros bio Hnot; simpl.
  - rewrite append_nil_r. reflexivity.
  - apply not_elem_of_cons in Hnot as [Hs Hl].
    destruct (String.eqb_spec s "See more") as [E|_]; [congruence|]. simpl.
    rewrite (IH _ Hl), append_assoc. reflexivity.
Qed.

(** X1. get_bio returns the text fragments of the summary element that
    come before the first fragment equal to "See more", concatenated and
    with every newline character removed; the fragments from "See more"
    on do not count. *)
Theorem get_bio_before_see_more (self : Profile) (bio_tag : node)
  (before : list string) :
  Soup.find bio_summary (soup self) = Some bio_tag ->
  "See more" ∉ before ->
  (Soup.strings bio_tag = before
   \/ exists after, Soup.strings bio_tag = (before ++ "See more" :: after)%list) ->
  Methods.get_bio self = (self, Ok (VStr (Text.remove_char newline (joined before)))).
Proof.
  intros Hfind Hnot Hstrings.
  unfold Methods.get_bio, def, reads, Methods.def_get_bio. fold bio_summary.
  rewrite Hfind. simpl. do 3 f_equal.
  destruct Hstrings as [->|[after ->]].
  - rewrite <- (app_nil_r before) at 1. rewrite (bio_loop_before _ _ _ Hnot). reflexivity.
  - rewrite (bio_loop_before _ _ _ Hnot). simpl. reflexivity.
Qed.

Lemma get_bio_before_see_more_witness :
  Soup.find bio_summary (soup (__init__ page_bio))
  = Some (Tag "p" {[ "class" := AList ["pv-top-card-section__summary"; "Sans-15px-black-70%";
                                        "mt5"; "pt5"; "ember-view"] ]}
            [Str "Hello"; Tag "span" ∅ [Str " world
"]; Tag "a" ∅ [Str "See more"]; Str " hidden"])
  /\ Methods.get_bio (__init__ page_bio) = (__init__ page_bio, Ok (VStr "Hello world")).
Proof.
  split; [vm_compute; reflexivity|].
  apply (get_bio_before_see_more (__init__ page_bio)
           (Tag "p" {[ "class" := AList ["pv-top-card-section__summary"; "Sans-15px-black-70%";
                                         "mt5"; "pt5"; "ember-view"] ]}
              [Str "Hello"; Tag "span" ∅ [Str " world
"]; Tag "a" ∅ [Str "See more"]; Str " hidden"])
           ["Hello"; " world
"]).
  - vm_compute. reflexivity.
  - intros H. repeat (apply elem_of_cons in H as [H|H]; [discriminate H|]).
    apply elem_of_nil in H. exact H.
  - right. exists [" hidden"]. vm_compute. reflexivity.
Defined.

(** X2. get_bio never raises, leaves the instance as it is and returns a
    string without any newline character; without a summary element the
    string is empty. *)
Theorem get_bio_total_without_newline (self : Profile) :
  (exists bio, Methods.get_bio self = (self, Ok (VStr bio))
               /\ newline ∉ Text.chars bio)
  /\ (Soup.find bio_summary (soup self) = None ->
      Methods.get_bio self = (self, Ok (VStr ""))).
Proof.
  unfold Methods.get_bio, def, reads, Methods.def_get_bio. fold bio_summary.
  destruct (Soup.find bio_summary (soup self)) as [bio_tag|]; simpl.
  - split; [|discriminate]. eexists. split; [reflexivity|].
    unfold Text.remove_char. rewrite chars_of_chars.
    intros Hin. apply list_elem_of_In, filter_In in Hin as [_ Hne].
    unfold newline in Hne. rewrite Ascii.eqb_refl in Hne. discriminate Hne.
  - split; [|reflexivity]. exists "". split; [reflexivity|]. apply not_elem_of_nil.
Qed.

(** ** The username *)

Lemma length_chars (s : string) : length (Text.chars s) = String.length s.
Proof. induction s as [|c s IH]; simpl; [reflexivity|]. f_equal. exact IH. Qed.

Lemma starts_with_true (p s : list ascii) :
  Text.starts_with p s = true -> exists r, s = (p ++ r)%list.
Proof.
  revert s. induction p as [|a p IH]; intros s; simpl.
  - intros _. exists s. reflexivity.
  - destruct s as [|b s]; [discriminate|].
    intros H. apply andb_true_iff in H as [Hab Hp].
    apply Ascii.eqb_eq in Hab as ->. destruct (IH s Hp) as [r ->].
    exists r. reflexivity.
Qed.

Lemma starts_with_app (p r : list ascii) : Text.starts_with p (p ++ r) = true.
Proof.
  induction p as [|a p IH]; simpl; [reflexivity|].
  rewrite Ascii.eqb_refl. exact IH.
Qed.

Lemma after_first_unfold (sep s : list ascii) :
  Text.after_first sep s =
    if Text.starts_with sep s then Some (drop (length sep) s)
    else match s with
         | [] => None
         | _ :: s' => Text.after_first sep s'
         end.
Proof. destruct s; reflexivity. Qed.

Lemma before_first_unfold (sep s : list ascii) :
  Text.before_first sep s =
    if Text.starts_with sep s then []
    else match s with
         | [] => []
         | c :: s' => c :: Text.before_first sep s'
         end.
Proof. destruct s; reflexivity. Qed.

Lemma starts_with_drop (sep s : list ascii) :
  Text.starts_with sep s = true -> s = (sep ++ drop (length sep) s)%list.
Proof.
  intros H. destruct (starts_with_true _ _ H) as [r ->].
  rewrite drop_app_length. reflexivity.
Qed.

Lemma after_first_Some (sep s rest : list ascii) :
  Text.after_first sep s = Some rest ->
  s = (Text.before_first sep s ++ sep ++ rest)%list.
Proof.
  induction s as [|c s IH]; rewrite after_first_unfold, before_first_unfold.
  - destruct (Text.starts_with sep []) eqn:Hs; [|discriminate].
    intros [= <-]. apply (starts_with_drop _ _ Hs).
  - destruct (Text.starts_with sep (c :: s)) eqn:Hs.
    + intros [= <-]. apply (starts_with_drop _ _ Hs).
    + intros H. simpl. f_equal. apply IH, H.
Qed.

Lemma after_first_None (sep s : list ascii) :
  Text.after_first sep s = None ->
  forall p r, s <> (p ++ sep ++ r)%list.
Proof.
  induction s as [|c s IH]; rewrite after_first_unfold.
  - destruct (Text.starts_with sep []) eqn:Hs; [discriminate|].
    intros _ p r E. destruct p; [|discriminate E].
    simpl in E. rewrite E, starts_with_app in Hs. discriminate Hs.
  - destruct (Text.starts_with sep (c :: s)) eqn:Hs; [discriminate|].
    intros H p r E. destruct p as [|a p].
    + simpl in E. rewrite E, starts_with_app in Hs. discriminate Hs.
    + injection E as _ E. exact (IH H p r E).
Qed.

Lemma before_first_leftmost (sep s p r : list ascii) :
  s = (p ++ sep ++ r)%list ->
  (length (Text.before_first sep s) <= length p)%nat.
Proof.
  revert p. induction s as [|c s IH]; intros p E; rewrite before_first_unfold.
  - destruct (Text.starts_with sep []); simpl; lia.
  - destruct (Text.starts_with sep (c :: s)) eqn:Hs; [simpl; lia|].
    destruct p as [|a p].
    + simpl in E. rewrite E, starts_with_app in Hs. discriminate Hs.
    + injection E as _ E. simpl. apply le_n_S, IH, E.
Qed.

(** X3. With a canonical link whose href is the string url, username
    returns the text after the leftmost "/in/" of url, so that url is
    some prefix, then "/in/", then the username, with no shorter prefix
    possible; when url does not contain "/in/" it raises an IndexError. *)
Theorem username_after_leftmost_marker (self : Profile) (link : node)
  (others : list node) (url : string) :
  reachable self ->
  Soup.find_all canonical_link (soup self) = link :: others ->
  Soup.getitem link "href" = Some (AStr url) ->
  match (Methods.username self).2 with
  | Ok (VStr username) =>
      exists prefix,
        url = (prefix ++ "/in/" ++ username)%string
        /\ forall p n, url = (p ++ "/in/" ++ n)%string ->
                       (String.length prefix <= String.length p)%nat
  | Err IndexError => forall p n, url <> (p ++ "/in/" ++ n)%string
  | _ => False
  end.
Proof.
  intros Hr Hlinks Hhref. change Methods.username with (getter Username).
  rewrite (pure_getter_reachable Username Methods.def_username self eq_refl Hr).
  unfold Methods.def_username. fold canonical_link. rewrite Hlinks. simpl.
  unfold Py.tag_getitem. rewrite Hhref. simpl. unfold Text.split1.
  destruct (Text.after_first (Text.chars "/in/") (Text.chars url)) as [rest|] eqn:Hafter; simpl.
  - exists (Text.of_chars (Text.before_first (Text.chars "/in/") (Text.chars url))).
    split.
    + rewrite <- (of_chars_chars url) at 1. rewrite <- (of_chars_chars (_ ++ _)%string).
      f_equal. rewrite !chars_append, !chars_of_chars.
      apply after_first_Some, Hafter.
    + intros p n E. rewrite <- !length_chars, chars_of_chars.
      apply (before_first_leftmost _ _ _ (Text.chars n)).
      rewrite E, !chars_append. reflexivity.
  - intros p n E.
    apply (after_first_None _ _ Hafter (Text.chars p) (Text.chars n)).
    rewrite E, !chars_append. reflexivity.
Qed.

Lemma username_after_leftmost_marker_witness :
  reachable (__init__ page_full)
  /\ Soup.find_all canonical_link (soup (__init__ page_full))
     = [Tag "link" {[ "rel" := AList ["canonical"];
                      "href" := AStr "https://www.linkedin.com/in/ann-lee/" ]} []]
  /\ (Methods.username (__init__ page_full)).2 = Ok (VStr "ann-lee/")
  /\ match (Methods.username (__init__ page_full)).2 with
     | Ok (VStr username) =>
         exists prefix,
           "https://www.linkedin.com/in/ann-lee/" = (prefix ++ "/in/" ++ username)%string
           /\ forall p n, "https://www.linkedin.com/in/ann-lee/" = (p ++ "/in/" ++ n)%string ->
                          (String.length prefix <= String.length p)%nat
     | Err IndexError =>
         forall p n, "https://www.linkedin.com/in/ann-lee/" <> (p ++ "/in/" ++ n)%string
     | _ => False
     end.
Proof.
  split; [apply reach_new|].
  split; [vm_compute; reflexivity|].
  split; [vm_compute; reflexivity|].
  apply (username_after_leftmost_marker (__init__ page_full)
           (Tag "link" {[ "rel" := AList ["canonical"];
                          "href" := AStr "https://www.linkedin.com/in/ann-lee/" ]} [])
           [] "https://www.linkedin.com/in/ann-lee/").
  - apply reach_new.
  - vm_compute. reflexivity.
  - vm_compute. reflexivity.
Defined.

(** ** The accomplishment getters *)

Lemma accomplishment_getter_unfold (k : accomplishment) (self : Profile) :
  accomplishment_getter k self =
    (self, call_result (Methods.accomplishments (labels k).1 (labels k).2 self)).
Proof. destruct k; reflexivity. Qed.

Lemma accomplishments_with_container (k : accomplishment) (self : Profile) (accomp_tag : node) :
  accomplishments_container (soup self) = Some accomp_tag ->
  accomplishment_getter k self =
    (self, Ok (VList (Methods.titles_loop (labels k).1 (labels k).2 (title_blocks accomp_tag) []))).
Proof.
  intros Hc. rewrite accomplishment_getter_unfold. unfold Methods.accomplishments.
  unfold accomplishments_container in Hc.
  destruct (Soup.find (Soup.class_ "pv-profile-section artdeco-container-card pv-accomplishments-section ember-view") (soup self))
    as [t|]; simpl in *.
  - injection Hc as ->. reflexivity.
  - rewrite Hc. reflexivity.
Qed.

Lemma titles_loop_first (k : accomplishment) (before after : list (node * node))
  (parent section : node) (array : list value) :
  (forall ps, ps ∈ before -> titled k ps.2 = false) ->
  titled k section = true ->
  Methods.titles_loop (labels k).1 (labels k).2 (before ++ (parent, section) :: after) array
  = (array ++ block_items parent)%list.
Proof.
  intros Hbefore Hsection.
  induction before as [|[p s] l IH]; simpl.
  - unfold titled in Hsection. rewrite Hsection.
    apply (fold_left_snoc_map (fun item => Py.str_value (Soup.string_of item))).
  - pose proof (Hbefore (p, s) ltac:(left)) as Hs. unfold titled in Hs. simpl in Hs.
    rewrite Hs. apply IH. intros ps Hps. apply Hbefore. right. exact Hps.
Qed.

Lemma titles_loop_none (k : accomplishment) (sections : list (node * node))
  (array : list value) :
  (forall ps, ps ∈ sections -> titled k ps.2 = false) ->
  Methods.titles_loop (labels k).1 (labels k).2 sections array = array.
Proof.
  intros Hnone. induction sections as [|[p s] l IH]; simpl; [reflexivity|].
  pose proof (Hnone (p, s) ltac:(left)) as Hs. unfold titled in Hs. simpl in Hs.
  rewrite Hs. apply IH. intros ps Hps. apply Hnone. right. exact Hps.
Qed.

(** X4. With an accomplishments container, each of get_languages,
    get_projects, get_awards, get_organizations and get_courses returns
    the direct texts of the list items below the parent of the first title
    block whose text is one of its two titles, in document order; title
    blocks after that one are not looked at. *)
Theorem accomplishments_first_titled_block (k : accomplishment) (self : Profile)
  (accomp_tag parent section : node) (before after : list (node * node)) :
  accomplishments_container (soup self) = Some accomp_tag ->
  title_blocks accomp_tag = (before ++ (parent, section) :: after)%list ->
  (forall ps, ps ∈ before -> titled k ps.2 = false) ->
  titled k section = true ->
  accomplishment_getter k self = (self, Ok (VList (block_items parent))).
Proof.
  intros Hc Hblocks Hbefore Hsection.
  rewrite (accomplishments_with_container k self accomp_tag Hc), Hblocks.
  rewrite (titles_loop_first k before after parent section [] Hbefore Hsection).
  reflexivity.
Qed.

Lemma accomplishments_first_titled_block_witness :
  accomplishments_container (soup (__init__ page_accomplishments)) = Some accomplishments_section
  /\ title_blocks accomplishments_section
     = [(languages_block, languages_title); (projects_block, projects_title)]
  /\ Methods.get_languages (__init__ page_accomplishments)
     = (__init__ page_accomplishments, Ok (VList [VStr "English"; VStr "French"]))
  /\ Methods.get_projects (__init__ page_accomplishments)
     = (__init__ page_accomplishments, Ok (VList [VStr "Compiler"])).
Proof.
  assert (Hc : accomplishments_container (soup (__init__ page_accomplishments))
               = Some accomplishments_section) by (vm_compute; reflexivity).
  assert (Hb : title_blocks accomplishments_section
               = [(languages_block, languages_title); (projects_block, projects_title)])
    by (vm_compute; reflexivity).
  split; [exact Hc|]. split; [exact Hb|]. split.
  - etransitivity.
    + apply (accomplishments_first_titled_block Languages (__init__ page_accomplishments)
               accomplishments_section languages_block languages_title
               [] [(projects_block, projects_title)] Hc Hb).
      * intros ps Hps. apply elem_of_nil in Hps. destruct Hps.
      * vm_compute. reflexivity.
    + vm_compute. reflexivity.
  - etransitivity.
    + apply (accomplishments_first_titled_block Projects (__init__ page_accomplishments)
               accomplishments_section projects_block projects_title
               [(languages_block, languages_title)] [] Hc Hb).
      * intros ps Hps. apply list_elem_of_singleton in Hps as ->. vm_compute. reflexivity.
      * vm_compute. reflexivity.
    + vm_compute. reflexivity.
Defined.

(** X5. With an accomplishments container in which no title block
    carries one of the getter's two titles, each of the five getters
    returns the empty list. *)
Theorem accomplishments_without_titled_block (k : accomplishment) (self : Profile)
  (accomp_tag : node) :
  accomplishments_container (soup self) = Some accomp_tag ->
  (forall ps, ps ∈ title_blocks accomp_tag -> titled k ps.2 = false) ->
  accomplishment_getter k self = (self, Ok (VList [])).
Proof.
  intros Hc Hnone.
  rewrite (accomplishments_with_container k self accomp_tag Hc).
  rewrite (titles_loop_none k _ [] Hnone). reflexivity.
Qed.

Lemma accomplishments_without_titled_block_witness :
  accomplishments_container (soup (__init__ page_accomplishments)) = Some accomplishments_section
  /\ (forall ps, ps ∈ title_blocks accomplishments_section -> titled Courses ps.2 = false)
  /\ Methods.get_courses (__init__ page_accomplishments)
     = (__init__ page_accomplishments, Ok (VList [])).
Proof.
  assert (Hc : accomplishments_container (soup (__init__ page_accomplishments))
               = Some accomplishments_section) by (vm_compute; reflexivity).
  assert (Hb : title_blocks accomplishments_section
               = [(languages_block, languages_title); (projects_block, projects_title)])
    by (vm_compute; reflexivity).
  assert (Hnone : forall ps, ps ∈ title_blocks accomplishments_section ->
                             titled Courses ps.2 = false).
  { intros ps Hps. rewrite Hb in Hps.
    apply elem_of_cons in Hps as [->|Hps]; [vm_compute; reflexivity|].
    apply list_elem_of_singleton in Hps as ->. vm_compute. reflexivity. }
  split; [exact Hc|]. split; [exact Hnone|].
  exact (accomplishments_without_titled_block Courses (__init__ page_accomplishments)
           accomplishments_section Hc Hnone).
Defined.

(** ** More on the decorator *)

(** X6. The cache is keyed by the variable name alone: once a function
    wrapped under a cache variable has succeeded on an instance, any
    function wrapped under the same variable returns the stored value on
    that instance, without running and without changing the instance. *)
Theorem cache_slot_shared_by_name (cache_var : string) (f g : method)
  (self : Profile) (v : value) :
  (cache cache_var f self).2 = Ok v ->
  cache cache_var g (cache cache_var f self).1 = ((cache cache_var f self).1, Ok v).
Proof. intros H. apply cache_hit, cache_stores, H. Qed.

Lemma cache_slot_shared_by_name_witness :
  (cache "__name" (def (reads Methods.def_name)) (__init__ page_full)).2 = Ok (VStr "Ann Lee")
  /\ (cache "__name" (def (reads Methods.def_location))
        (cache "__name" (def (reads Methods.def_name)) (__init__ page_full)).1).2
     = Ok (VStr "Ann Lee").
Proof.
  assert (H : (cache "__name" (def (reads Methods.def_name)) (__init__ page_full)).2
              = Ok (VStr "Ann Lee")) by (vm_compute; reflexivity).
  split; [exact H|].
  rewrite (cache_slot_shared_by_name "__name" (def (reads Methods.def_name))
             (def (reads Methods.def_location)) (__init__ page_full) (VStr "Ann Lee") H).
  reflexivity.
Defined.

Lemma runs_setattr a s cv v : runs a (setattr s cv v) = runs a s.
Proof. reflexivity. Qed.

(** On a miss the body under the accessor is entered once more, and a
    failure leaves the slot empty. *)
Lemma getter_miss a s :
  consistent s ->
  dict s !! cache_var a = None ->
  runs a (getter a s).1 = S (runs a s)
  /\ (forall e, (getter a s).2 = Err e -> dict (getter a s).1 !! cache_var a = None).
Proof.
  intros Hc Hd. destruct (pure_body a) as [body|] eqn:Hb.
  - rewrite (pure_body_getter a body Hb), (cache_miss _ _ _ Hd). unfold def, reads.
    destruct (call_result (body (entered (cache_var a) s))) as [v|e]; simpl.
    + split; [|discriminate]. rewrite runs_setattr. apply runs_entered_eq.
    + split; [apply runs_entered_eq|]. intros _ _. exact Hd.
  - assert (a = CurrentCompany) as -> by (destruct a; simpl in Hb; congruence).
    simpl getter. unfold Methods.current_company, property.
    rewrite (cache_miss _ _ _ Hd).
    set (s1 := entered (cache_var CurrentCompany) s).
    assert (Hac1 : consistent_at AllCompanies s1).
    { apply (consistent_at_same _ s); [|apply Hc].
      apply (same_at_entered CurrentCompany). discriminate. }
    destruct (all_companies_step s1 Hac1) as (_ & Hs & _ & Hsame).
    rewrite (def_current_company_run s1 Hs).
    set (sx := if Py.is_not_None _ then s1 else (Methods.all_companies s1).1).
    assert (Hx : same_at CurrentCompany s1 sx).
    { unfold sx. destruct (Py.is_not_None _); [apply same_at_refl|].
      apply Hsame. discriminate. }
    destruct Hx as (Hdx & Hrx & _).
    destruct (current_company_result _ _) as [v|e]; simpl.
    + split; [|discriminate]. rewrite runs_setattr, Hrx. apply runs_entered_eq.
    + split; [rewrite Hrx; apply runs_entered_eq|].
      intros _ _. change (dict sx !! cache_var CurrentCompany = None).
      rewrite Hdx. exact Hd.
Qed.

(** X7. A failure is not memoized: when an accessor raises on a
    reachable instance, the next call enters its body again and raises the
    same exception; each of the two calls adds one run of the body. *)
Theorem failed_access_runs_again (a : accessor) (self : Profile) (e : exn) :
  reachable self ->
  (getter a self).2 = Err e ->
  let self1 := (getter a self).1 in
  (getter a self1).2 = Err e
  /\ runs a self1 = S (runs a self)
  /\ runs a (getter a self1).1 = S (S (runs a self)).
Proof.
  intros Hr He self1.
  pose proof (reachable_consistent self Hr) as Hc.
  assert (Hd : dict self !! cache_var a = None).
  { destruct (dict self !! cache_var a) as [v|] eqn:Hd; [|reflexivity].
    rewrite (getter_hit a self v Hd) in He. discriminate He. }
  destruct (getter_miss a self Hc Hd) as (Hruns & Hnone).
  destruct (getter_step a self Hc) as (Ho & Hs & Hc1 & _).
  fold self1 in Hruns, Hs, Hc1.
  pose proof (Hnone e He) as Hd1. fold self1 in Hd1.
  destruct (getter_miss a self1 Hc1 Hd1) as (Hruns1 & _).
  destruct (getter_step a self1 Hc1) as (Ho1 & _).
  refine (conj _ (conj Hruns _)).
  - rewrite Ho1, Hs, <- Ho. exact He.
  - rewrite Hruns1, Hruns. reflexivity.
Qed.

Lemma failed_access_runs_again_witness :
  reachable (__init__ page_bare)
  /\ (getter Username (__init__ page_bare)).2 = Err IndexError
  /\ (getter Username (getter Username (__init__ page_bare)).1).2 = Err IndexError
  /\ runs Username (getter Username (getter Username (__init__ page_bare)).1).1 = 2%nat.
Proof.
  assert (He : (getter Username (__init__ page_bare)).2 = Err IndexError)
    by (vm_compute; reflexivity).
  destruct (failed_access_runs_again Username (__init__ page_bare) IndexError
              (reach_new page_bare) He) as (H1 & _ & H2).
  split; [apply reach_new|]. split; [exact He|]. split; [exact H1|exact H2].
Defined.

(** X8. Whatever accessors are called on a new instance, in whatever
    order, the document stays the one the instance was built from, and a
    value found under an accessor's cache variable is the value a new
    instance of the document yields for that accessor, its body having run
    exactly once. *)
Theorem cache_coherent (document : node) (calls : list accessor) (a : accessor)
  (v : value) :
  dict (access_all calls (__init__ document)) !! cache_var a = Some v ->
  soup (access_all calls (__init__ document)) = document
  /\ outcome a document = Ok v
  /\ runs a (access_all calls (__init__ document)) = 1%nat.
Proof.
  intros Hd.
  destruct (access_all_step calls (__init__ document) (consistent_new document))
    as (Hc & Hs & _).
  split; [exact Hs|].
  specialize (Hc a). unfold consistent_at in Hc. rewrite Hd, Hs in Hc. exact Hc.
Qed.

Lemma cache_coherent_witness :
  dict (access_all [CurrentCompany; Name; AllCompanies] (__init__ page_full))
    !! cache_var AllCompanies = Some (VList [VStr "Acme"; VStr "Initech"])
  /\ outcome AllCompanies page_full = Ok (VList [VStr "Acme"; VStr "Initech"])
  /\ runs AllCompanies (access_all [CurrentCompany; Name; AllCompanies] (__init__ page_full))
     = 1%nat.
Proof.
  assert (Hd : dict (access_all [CurrentCompany; Name; AllCompanies] (__init__ page_full))
                 !! cache_var AllCompanies = Some (VList [VStr "Acme"; VStr "Initech"]))
    by (vm_compute; reflexivity).
  split; [exact Hd|].
  exact (proj2 (cache_coherent page_full [CurrentCompany; Name; AllCompanies] AllCompanies
                  (VList [VStr "Acme"; VStr "Initech"]) Hd)).
Defined.

(** ** current_company and all_companies together *)

Lemma current_company_result_no_section (document : node) (companies : list value) :
  Soup.find current_positions document = None ->
  exists v, current_company_result document (Ok (VList companies)) = Ok v.
Proof.
  intros Hnone. unfold current_company_result. fold current_positions. rewrite Hnone.
  destruct companies as [|c l].
  - simpl. destruct (Soup.find (Soup.class_ "headline title") document); eauto.
  - exists c. reflexivity.
Qed.

Lemma getter_other_slot a b s :
  consistent s ->
  a <> b ->
  (a = CurrentCompany -> b <> AllCompanies) ->
  dict (getter a s).1 !! cache_var b = dict s !! cache_var b.
Proof.
  intros Hc Hne Hcc. destruct (pure_body a) as [body|] eqn:Hb.
  - destruct (pure_step a body (pure_body_getter a body Hb)
                (fun s s' => pure_body_reads_soup a body s s' Hb) s (Hc a))
      as (_ & _ & _ & Hsame).
    apply (Hsame b Hne).
  - assert (a = CurrentCompany) as -> by (destruct a; simpl in Hb; congruence).
    destruct (current_company_step s (Hc _) (Hc _)) as (_ & _ & _ & _ & _ & Hsame).
    apply (Hsame b Hne). intros E. apply (Hcc eq_refl). symmetry. exact E.
Qed.

Lemma current_company_miss_caches s :
  consistent s ->
  dict s !! cache_var CurrentCompany = None ->
  Soup.find current_positions (soup s) = None ->
  is_Some (dict (Methods.current_company s).1 !! cache_var AllCompanies).
Proof.
  intros Hc Hd Hnone. unfold Methods.current_company, property.
  rewrite (cache_miss _ _ _ Hd).
  set (s1 := entered (cache_var CurrentCompany) s).
  assert (Hac1 : consistent_at AllCompanies s1).
  { apply (consistent_at_same _ s); [|apply Hc].
    apply (same_at_entered CurrentCompany). discriminate. }
  destruct (all_companies_step s1 Hac1) as (Hr & Hs & _ & _).
  rewrite (def_current_company_run s1 Hs).
  change (soup s1) with (soup s). fold current_positions. rewrite Hnone.
  rewrite all_companies_outcome in Hr.
  pose proof (getter_stores AllCompanies s1 _ Hr) as Hstored.
  change (getter AllCompanies s1) with (Methods.all_companies s1) in Hstored.
  cbn [Py.is_not_None Py.is_None negb].
  destruct (current_company_result _ _) as [v|e]; cbn [fst snd].
  - unfold setattr. cbn [dict].
    rewrite lookup_insert_ne by (simpl; discriminate). rewrite Hstored. eauto.
  - rewrite Hstored. eauto.
Qed.

Lemma all_companies_cached_with_current_company s :
  reachable s ->
  Soup.find current_positions (soup s) = None ->
  is_Some (dict s !! cache_var CurrentCompany) ->
  is_Some (dict s !! cache_var AllCompanies).
Proof.
  induction 1 as [document|a s Hr IH]; intros Hnone Hcc.
  - simpl in Hcc. rewrite lookup_empty in Hcc. destruct Hcc as [v Hv]. discriminate Hv.
  - pose proof (reachable_consistent s Hr) as Hc.
    destruct (getter_step a s Hc) as (_ & Hs & _ & Hp).
    rewrite Hs in Hnone.
    destruct (decide (a = CurrentCompany)) as [->|Hne].
    + destruct (dict s !! cache_var CurrentCompany) as [v|] eqn:Hd.
      * rewrite (getter_hit CurrentCompany s v Hd). cbn [fst].
        apply IH; [exact Hnone|]. try rewrite Hd. eauto.
      * apply (current_company_miss_caches s Hc Hd Hnone).
    + rewrite (getter_other_slot a CurrentCompany s Hc Hne) in Hcc by congruence.
      destruct (IH Hnone Hcc) as [w Hw]. rewrite (Hp AllCompanies w Hw). eauto.
Qed.

(** X9. On a document without current-position section, an access to
    current_company also memoizes all_companies: afterwards all_companies
    returns its list without running and without changing the instance,
    its body having run exactly once. *)
Theorem current_company_memoizes_all_companies (self : Profile) :
  reachable self ->
  Soup.find current_positions (soup self) = None ->
  let self' := (Methods.current_company self).1 in
  Methods.all_companies self' = (self', Ok (VList (companies_of (soup self))))
  /\ runs AllCompanies self' = 1%nat.
Proof.
  intros Hr Hnone self'.
  assert (Eself : self' = (getter CurrentCompany self).1) by reflexivity.
  clearbody self'. subst self'.
  pose proof (reachable_consistent self Hr) as Hc.
  destruct (getter_step CurrentCompany self Hc) as (Ho & Hs & Hc' & _).
  rewrite current_company_outcome, all_companies_outcome in Ho.
  destruct (current_company_result_no_section _ (companies_of (soup self)) Hnone) as [v Hv].
  rewrite Hv in Ho.
  pose proof (getter_stores CurrentCompany self v Ho) as Hcc.
  assert (Hac : is_Some (dict (getter CurrentCompany self).1 !! cache_var AllCompanies)).
  { apply all_companies_cached_with_current_company.
    - apply (reach_get CurrentCompany), Hr.
    - rewrite Hs. exact Hnone.
    - rewrite Hcc. eauto. }
  destruct Hac as [w Hw].
  pose proof (Hc' AllCompanies) as Hcons. unfold consistent_at in Hcons.
  rewrite Hw, Hs, all_companies_outcome in Hcons. destruct Hcons as [[= <-] Hruns].
  split; [|exact Hruns].
  apply (getter_hit AllCompanies _ _ Hw).
Qed.

Lemma current_company_memoizes_all_companies_witness :
  reachable (__init__ page_full)
  /\ Soup.find current_positions (soup (__init__ page_full)) = None
  /\ (Methods.all_companies (Methods.current_company (__init__ page_full)).1).2
     = Ok (VList [VStr "Acme"; VStr "Initech"])
  /\ runs AllCompanies (Methods.current_company (__init__ page_full)).1 = 1%nat.
Proof.
  assert (Hnone : Soup.find current_positions (soup (__init__ page_full)) = None)
    by (vm_compute; reflexivity).
  destruct (current_company_memoizes_all_companies (__init__ page_full)
              (reach_new page_full) Hnone) as (Hac & Hruns).
  split; [apply reach_new|]. split; [exact Hnone|]. split; [|exact Hruns].
  rewrite Hac. vm_compute. reflexivity.
Defined.

(** X10. On a document with a current-position section, an access to
    current_company does not involve all_companies: its cache slot and
    the number of runs of its body stay as they were. *)
Theorem current_company_with_section_skips_all_companies (self : Profile)
  (company_tag : node) :
  reachable self ->
  Soup.find current_positions (soup self) = Some company_tag ->
  let self' := (Methods.current_company self).1 in
  dict self' !! cache_var AllCompanies = dict self !! cache_var AllCompanies
  /\ runs AllCompanies self' = runs AllCompanies self.
Proof.
  intros Hr Htag self'. unfold self'.
  pose proof (reachable_consistent self Hr) as Hc.
  destruct (dict self !! cache_var CurrentCompany) as [v|] eqn:Hd.
  - change Methods.current_company with (getter CurrentCompany).
    rewrite (getter_hit CurrentCompany self v Hd). split; reflexivity.
  - unfold Methods.current_company, property.
    rewrite (cache_miss _ _ _ Hd).
    set (s1 := entered (cache_var CurrentCompany) self).
    assert (Hac1 : consistent_at AllCompanies s1).
    { apply (consistent_at_same _ self); [|apply Hc].
      apply (same_at_entered CurrentCompany). discriminate. }
    destruct (all_companies_step s1 Hac1) as (_ & Hs & _ & _).
    rewrite (def_current_company_run s1 Hs).
    change (soup s1) with (soup self). fold current_positions. rewrite Htag.
    cbn [Py.is_not_None Py.is_None negb].
    destruct (current_company_result _ _) as [v|e]; cbn [fst snd].
    + split.
      * unfold setattr. cbn [dict]. rewrite lookup_insert_ne by (simpl; discriminate).
        reflexivity.
      * rewrite runs_setattr. apply (runs_entered_ne CurrentCompany). discriminate.
    + split; [reflexivity|]. apply (runs_entered_ne CurrentCompany). discriminate.
Qed.

Lemma current_company_with_section_skips_all_companies_witness :
  reachable (__init__ page_current_position)
  /\ Soup.find current_positions (soup (__init__ page_current_position))
     = Some (Tag "div" {[ "data-section" := AStr "currentPositionsDetails" ]}
               [Tag "span" {[ "class" := AList ["org"] ]} [Str "Acme"]])
  /\ dict (Methods.current_company (__init__ page_current_position)).1
       !! cache_var AllCompanies = None
  /\ runs AllCompanies (Methods.current_company (__init__ page_current_position)).1 = 0%nat.
Proof.
  assert (Htag : Soup.find current_positions (soup (__init__ page_current_position))
                 = Some (Tag "div" {[ "data-section" := AStr "currentPositionsDetails" ]}
                           [Tag "span" {[ "class" := AList ["org"] ]} [Str "Acme"]]))
    by (vm_compute; reflexivity).
  destruct (current_company_with_section_skips_all_companies
              (__init__ page_current_position) _ (reach_new _) Htag) as (Hd & Hruns).
  split; [apply reach_new|]. split; [exact Htag|]. split.
  - rewrite Hd. apply lookup_empty.
  - rewrite Hruns. reflexivity.
Defined.

(** X11. current_company raises nothing but an AttributeError, and only
    on a document whose first current-position section holds no element of
    class "org". *)
Theorem current_company_raises_only_without_org (self : Profile) (e : exn) :
  reachable self ->
  (Methods.current_company self).2 = Err e ->
  e = AttributeError
  /\ exists company_tag,
       Soup.find current_positions (soup self) = Some company_tag
       /\ Soup.find (Soup.class_ "org") company_tag = None.
Proof.
  intros Hr. change Methods.current_company with (getter CurrentCompany).
  rewrite (getter_reachable CurrentCompany self Hr), current_company_outcome,
    all_companies_outcome.
  destruct (Soup.find current_positions (soup self)) as [company_tag|] eqn:Htag.
  - unfold current_company_result. fold current_positions. rewrite Htag.
    destruct (Soup.find (Soup.class_ "org") company_tag) eqn:Horg; [discriminate|].
    intros [= <-]. eauto.
  - destruct (current_company_result_no_section _ (companies_of (soup self)) Htag) as [v ->].
    discriminate.
Qed.

Lemma current_company_raises_only_without_org_witness :
  reachable (__init__ page_position_without_org)
  /\ (Methods.current_company (__init__ page_position_without_org)).2 = Err AttributeError
  /\ exists company_tag,
       Soup.find current_positions (soup (__init__ page_position_without_org))
         = Some company_tag
       /\ Soup.find (Soup.class_ "org") company_tag = None.
Proof.
  assert (He : (Methods.current_company (__init__ page_position_without_org)).2
               = Err AttributeError) by (vm_compute; reflexivity).
  split; [apply reach_new|]. split; [exact He|].
  exact (proj2 (current_company_raises_only_without_org
                  (__init__ page_position_without_org) AttributeError (reach_new _) He)).
Defined.

(** ** When skills raises *)

Lemma skills_loop_raises (skills_html : list node) (skills_array : list value) :
  mapM Soup.string_of (List.filter (fun skill => negb (skipped skill)) skills_html) = None ->
  Methods.skills_loop skills_html skills_array = Raise AttributeError.
Proof.
  revert skills_array.
  induction skills_html as [|skill l IH]; intros skills_array; simpl.
  - discriminate.
  - unfold skipped at 1.
    destruct (bool_decide (Some "see-more" ∈ _)); simpl; [apply IH|].
    destruct (bool_decide (Some "see-less" ∈ _)); simpl; [apply IH|].
    destruct (bool_decide (Soup.find_all _ skill = [])); simpl; [|apply IH].
    destruct (Soup.string_of skill) as [t|]; simpl; [|reflexivity].
    destruct (mapM Soup.string_of _) as [texts'|] eqn:Hrest; simpl; [discriminate|].
    intros _. apply IH. reflexivity.
Qed.

Lemma skills_outcome (self : Profile) :
  reachable self ->
  (Methods.skills self).2 =
    match mapM Soup.string_of (kept_skills (soup self)) with
    | Some texts => Ok (VList (map sanitized texts))
    | None => Err AttributeError
    end.
Proof.
  intros Hr. change Methods.skills with (getter Skills).
  rewrite (pure_getter_reachable Skills Methods.def_skills self eq_refl Hr).
  assert (Hc : (let skills_html :=
                  Soup.find_all (Soup.class_ "pv-skill-entity__skill-name") (soup self) in
                if (Z.of_nat (length skills_html) =? 0)%Z
                then Soup.find_all (Soup.class_ "skill") (soup self)
                else skills_html) = skill_candidates (soup self)).
  { unfold skill_candidates. destruct (Soup.find_all _ (soup self)); reflexivity. }
  unfold Methods.def_skills. simpl in Hc. rewrite Hc. unfold kept_skills.
  destruct (mapM Soup.string_of _) as [texts|] eqn:Htexts.
  - rewrite (skills_loop_kept _ [] texts Htexts). reflexivity.
  - rewrite (skills_loop_raises _ [] Htexts). reflexivity.
Qed.

(** X12. skills raises exactly when some candidate that is not skipped
    has no single direct text, and what it raises then is an
    AttributeError. *)
Theorem skills_raises_iff_entry_without_text (self : Profile) (e : exn) :
  reachable self ->
  (Methods.skills self).2 = Err e
  <-> e = AttributeError
      /\ exists skill, skill ∈ kept_skills (soup self) /\ Soup.string_of skill = None.
Proof.
  intros Hr. rewrite (skills_outcome self Hr).
  destruct (mapM Soup.string_of (kept_skills (soup self))) as [texts|] eqn:Htexts.
  - split; [discriminate|]. intros [_ Hex].
    apply Exists_exists, mapM_None in Hex. congruence.
  - split.
    + intros [= <-]. split; [reflexivity|].
      apply Exists_exists, mapM_None, Htexts.
    + intros [-> _]. reflexivity.
Qed.

Lemma skills_raises_iff_entry_without_text_witness :
  reachable (__init__ page_skill_markup)
  /\ (Methods.skills (__init__ page_skill_markup)).2 = Err AttributeError
  /\ exists skill, skill ∈ kept_skills (soup (__init__ page_skill_markup))
                   /\ Soup.string_of skill = None.
Proof.
  assert (He : (Methods.skills (__init__ page_skill_markup)).2 = Err AttributeError)
    by (vm_compute; reflexivity).
  split; [apply reach_new|]. split; [exact He|].
  exact (proj2 (proj1 (skills_raises_iff_entry_without_text (__init__ page_skill_markup)
                         AttributeError (reach_new _)) He)).
Defined.

(** ** What location and connection_count return *)

Lemma decimal_fold_nonnegative (cs : list ascii) (acc : Z) :
  0 <= acc ->
  forallb Text.isdecimal_char cs = true ->
  0 <= fold_left (fun acc c => acc * 10 + (Z.of_N (Text.code c) - 48)) cs acc.
Proof.
  revert acc. induction cs as [|c cs IH]; intros acc Hacc; simpl; [auto|].
  intros H. apply andb_true_iff in H as [Hc Hcs].
  apply IH; [|exact Hcs].
  unfold Text.isdecimal_char in Hc. apply andb_true_iff in Hc as [H1 _].
  apply N.leb_le in H1. lia.
Qed.

Lemma fragment_value_nonnegative (fragment : string) (z : Z) :
  fragment_value fragment = Some z -> 0 <= z.
Proof.
  unfold fragment_value, Text.int.
  destruct (Text.isdigit fragment).
  - destruct (0 <? length (Text.chars fragment))%nat; simpl; [|discriminate].
    destruct (forallb Text.isdecimal_char (Text.chars fragment)) eqn:Hd; simpl;
      [|discriminate].
    destruct (length (Text.chars fragment) <=? Text.int_max_str_digits)%nat;
      [|discriminate].
    intros [= <-]. apply decimal_fold_nonnegative; [lia|exact Hd].
  - destruct (String.eqb fragment "500+"); intros [= <-]; lia.
Qed.

Lemma last_fragment_value_nonnegative (fragments : list string) :
  0 <= last_fragment_value fragments.
Proof.
  unfold last_fragment_value.
  destruct (last (omap fragment_value fragments)) as [z|] eqn:Hlast; simpl; [|lia].
  apply last_Some_elem_of, list_elem_of_omap in Hlast as (fragment & _ & Hf).
  apply (fragment_value_nonnegative fragment z Hf).
Qed.

Lemma connection_count_outcome (self : Profile) :
  reachable self ->
  (Methods.connection_count self).2 =
    match Soup.find (Soup.class_ "member-connections") (soup self) with
    | None => Ok VNone
    | Some conn_tag =>
        if existsb rejected_by_int (Soup.strings conn_tag) then Err ValueError
        else Ok (VInt (last_fragment_value (Soup.strings conn_tag)))
    end.
Proof.
  intros Hr. change Methods.connection_count with (getter ConnectionCount).
  rewrite (pure_getter_reachable ConnectionCount Methods.def_connection_count self eq_refl Hr).
  unfold Methods.def_connection_count.
  destruct (Soup.find _ (soup self)) as [conn_tag|]; simpl; [|reflexivity].
  rewrite connections_loop_scan.
  destruct (existsb rejected_by_int (Soup.strings conn_tag)); reflexivity.
Qed.

(** X13. location never raises: on every reachable instance it returns
    a string or None.  connection_count returns None or an integer that
    is not negative, and the only exception it raises is a ValueError, on
    a document whose connections element holds a text fragment that
    isdigit() accepts and int() rejects. *)
Theorem location_and_connection_count_return (self : Profile) :
  reachable self ->
  (exists v, (Methods.location self).2 = Ok v /\ (v = VNone \/ exists t, v = VStr t))
  /\ match (Methods.connection_count self).2 with
     | Ok v => v = VNone \/ exists n, v = VInt n /\ 0 <= n
     | Err e =>
         e = ValueError
         /\ exists conn_tag fragment,
              Soup.find (Soup.class_ "member-connections") (soup self) = Some conn_tag
              /\ fragment ∈ Soup.strings conn_tag
              /\ Text.isdigit fragment = true
              /\ Text.int fragment = None
     end.
Proof.
  intros Hr. split.
  - change Methods.location with (getter Location).
    rewrite (pure_getter_reachable Location Methods.def_location self eq_refl Hr).
    unfold Methods.def_location.
    destruct (Soup.find _ (soup self)) as [location_tag|]; simpl.
    + destruct (Soup.string_of location_tag) as [t|]; simpl; eauto.
    + eauto.
  - rewrite (connection_count_outcome self Hr).
    destruct (Soup.find _ (soup self)) as [conn_tag|]; [|left; reflexivity].
    destruct (existsb rejected_by_int (Soup.strings conn_tag)) eqn:Hrej.
    + split; [reflexivity|].
      apply existsb_exists in Hrej as (fragment & Hin & Hrej).
      unfold rejected_by_int in Hrej. apply andb_true_iff in Hrej as [Hd Hi].
      exists conn_tag, fragment. split; [reflexivity|].
      split; [apply list_elem_of_In, Hin|]. split; [exact Hd|].
      destruct (Text.int fragment); [discriminate Hi|reflexivity].
    + right. eexists. split; [reflexivity|].
      apply (last_fragment_value_nonnegative (Soup.strings conn_tag)).
Qed.

Lemma location_and_connection_count_return_witness :
  reachable (__init__ page_superscript_connections)
  /\ (Methods.location (__init__ page_superscript_connections)).2 = Ok VNone
  /\ (Methods.connection_count (__init__ page_superscript_connections)).2 = Err ValueError
  /\ match (Methods.connection_count (__init__ page_superscript_connections)).2 with
     | Ok v => v = VNone \/ exists n, v = VInt n /\ 0 <= n
     | Err e =>
         e = ValueError
         /\ exists conn_tag fragment,
              Soup.find (Soup.class_ "member-connections")
                (soup (__init__ page_superscript_connections)) = Some conn_tag
              /\ fragment ∈ Soup.strings conn_tag
              /\ Text.isdigit fragment = true
              /\ Text.int fragment = None
     end.
Proof.
  split; [apply reach_new|].
  split; [vm_compute; reflexivity|].
  split; [vm_compute; reflexivity|].
  exact (proj2 (location_and_connection_count_return
                  (__init__ page_superscript_connections) (reach_new _))).
Defined.

(** X18. connection_count returns None without a connections element.
    With one, it raises a ValueError when some text fragment below the
    element is accepted by isdigit() and rejected by int() (a fragment
    with a superscript digit, or with more than 4300 digits); otherwise it
    returns the value of the last fragment that is either all digits (its
    integer value) or the literal "500+" (500), and 0 when no fragment has
    one of the two forms. *)
Theorem connection_count_scan (self : Profile) :
  reachable self ->
  (Methods.connection_count self).2 =
    match Soup.find (Soup.class_ "member-connections") (soup self) with
    | None => Ok VNone
    | Some conn_tag =>
        if existsb rejected_by_int (Soup.strings conn_tag) then Err ValueError
        else Ok (VInt (last_fragment_value (Soup.strings conn_tag)))
    end.
Proof. apply connection_count_outcome. Qed.

Lemma connection_count_scan_witness :
  reachable (__init__ page_full)
  /\ (Methods.connection_count (__init__ page_full)).2 = Ok (VInt 500)
  /\ last_fragment_value ["500+"] = 500
  /\ last_fragment_value ["37"] = 37
  /\ last_fragment_value [] = 0.
Proof.
  split; [apply reach_new|].
  split.
  - etransitivity.
    + apply connection_count_scan, reach_new.
    + vm_compute. reflexivity.
  - repeat split; vm_compute; reflexivity.
Defined.

(** X14. all_companies never raises: on every reachable instance it
    returns a list with one entry for each element of class
    "item-subtitle" inside the first element of class "positions", in
    document order, the entry being the element's direct text or None; the
    list is empty when the document has no "positions" element. *)
Theorem all_companies_one_entry_per_subtitle (self : Profile) :
  reachable self ->
  (Methods.all_companies self).2 =
    Ok (VList
          match Soup.find (Soup.class_ "positions") (soup self) with
          | Some experience_tag =>
              map (fun company => Py.str_value (Soup.string_of company))
                  (Soup.find_all (Soup.class_ "item-subtitle") experience_tag)
          | None => []
          end).
Proof.
  intros Hr. change Methods.all_companies with (getter AllCompanies).
  rewrite (getter_reachable AllCompanies self Hr), all_companies_outcome. reflexivity.
Qed.

Lemma all_companies_one_entry_per_subtitle_witness :
  reachable (Methods.current_company (__init__ page_full)).1
  /\ (Methods.all_companies (Methods.current_company (__init__ page_full)).1).2
     = Ok (VList [VStr "Acme"; VStr "Initech"]).
Proof.
  split; [apply (reach_get CurrentCompany), reach_new|].
  etransitivity.
  - apply all_companies_one_entry_per_subtitle, (reach_get CurrentCompany), reach_new.
  - vm_compute. reflexivity.
Defined.

(** ** What get_media_number returns *)

Lemma digits_number_nonnegative (t : string) : 0 <= digits_number t.
Proof.
  unfold digits_number. apply decimal_fold_nonnegative; [lia|].
  apply forallb_forall. intros c Hc. apply filter_In in Hc as [_ Hc]. exact Hc.
Qed.

Lemma get_media_number_outcome (self : Profile) :
  Methods.get_media_number self =
    (self,
     match Soup.find (Soup.class_ "pv-treasury-carousel__subheadline") (soup self) with
     | None => Ok (VStr "")
     | Some media_title =>
         match Soup.string_of media_title with
         | None => Err (TypeError "'NoneType' object is not iterable")
         | Some t =>
             if existsb rejected_char (Text.chars t) then Err ValueError
             else Ok (VInt (digits_number t))
         end
     end).
Proof.
  unfold Methods.get_media_number, def, reads, Methods.def_get_media_number. f_equal.
  destruct (Soup.find _ (soup self)) as [media_title|]; simpl; [|reflexivity].
  destruct (Soup.string_of media_title) as [t|]; simpl; [|reflexivity].
  rewrite media_loop_scan.
  destruct (existsb rejected_char (Text.chars t)); reflexivity.
Qed.

(** X15. get_media_number never returns a negative number; it returns a
    string only as the empty string, when the subheadline element is
    absent; and it raises only the TypeError of iterating over None, on a
    subheadline element without a single direct text, or a ValueError, on
    a text with a character that isdigit() accepts and int() rejects. *)
Theorem get_media_number_range (self : Profile) :
  match (Methods.get_media_number self).2 with
  | Ok (VInt n) => 0 <= n
  | Ok (VStr s) =>
      s = "" /\ Soup.find (Soup.class_ "pv-treasury-carousel__subheadline") (soup self) = None
  | Err e =>
      exists media_title,
        Soup.find (Soup.class_ "pv-treasury-carousel__subheadline") (soup self)
          = Some media_title
        /\ ((e = TypeError "'NoneType' object is not iterable"
             /\ Soup.string_of media_title = None)
            \/ (e = ValueError
                /\ exists t c,
                     Soup.string_of media_title = Some t
                     /\ c ∈ Text.chars t
                     /\ Text.isdigit_char c = true
                     /\ Text.int_char c = None))
  | Ok _ => False
  end.
Proof.
  rewrite get_media_number_outcome. cbn [snd].
  destruct (Soup.find _ (soup self)) as [media_title|]; [|auto].
  destruct (Soup.string_of media_title) as [t|] eqn:Ht.
  - destruct (existsb rejected_char (Text.chars t)) eqn:Hrej.
    + exists media_title. split; [reflexivity|]. right. split; [reflexivity|].
      apply existsb_exists in Hrej as (c & Hin & Hrej).
      unfold rejected_char in Hrej. apply andb_true_iff in Hrej as [Hd Hi].
      exists t, c. split; [exact Ht|]. split; [apply list_elem_of_In, Hin|].
      split; [exact Hd|]. destruct (Text.int_char c); [discriminate Hi|reflexivity].
    + apply digits_number_nonnegative.
  - exists media_title. split; [reflexivity|]. left. split; [reflexivity|exact Ht].
Qed.

(** X19. get_media_number returns the empty string without a media
    subheadline element and raises a TypeError when the element has no
    single direct text.  With a direct text t it raises a ValueError when
    t holds a character that isdigit() accepts and int() rejects (a
    superscript digit); otherwise it returns the number formed by the
    digit characters of t, read left to right as value = value * 10 +
    digit, every other character being ignored ("1,234 media" gives
    1234). *)
Theorem get_media_number_scan (self : Profile) :
  Methods.get_media_number self =
    (self,
     match Soup.find (Soup.class_ "pv-treasury-carousel__subheadline") (soup self) with
     | None => Ok (VStr "")
     | Some media_title =>
         match Soup.string_of media_title with
         | None => Err (TypeError "'NoneType' object is not iterable")
         | Some t =>
             if existsb rejected_char (Text.chars t) then Err ValueError
             else Ok (VInt (digits_number t))
         end
     end)
  /\ digits_number "1,234 media" = 1234
  /\ existsb rejected_char (Text.chars "1,234 media") = false.
Proof.
  split; [apply get_media_number_outcome|].
  split; vm_compute; reflexivity.
Qed.

(** ** The returned skills are in normal form *)

Lemma lower_char_idempotent (c : ascii) :
  Text.lower_char (Text.lower_char c) = Text.lower_char c.
Proof. destruct c as [[] [] [] [] [] [] [] []]; reflexivity. Qed.

Lemma lstrip_no_leading_space (l : list ascii) : no_leading_space (Text.lstrip_chars l).
Proof.
  induction l as [|c l IH]; simpl; [exact I|].
  destruct (Text.isspace_char c) eqn:Hc; [exact IH|exact Hc].
Qed.

Lemma lstrip_fixed (l : list ascii) : no_leading_space l -> Text.lstrip_chars l = l.
Proof. destruct l as [|c l]; simpl; [reflexivity|]. intros ->. reflexivity. Qed.

Lemma lstrip_suffix (l : list ascii) : exists p, l = (p ++ Text.lstrip_chars l)%list.
Proof.
  induction l as [|c l [p IH]]; simpl.
  - exists []. reflexivity.
  - destruct (Text.isspace_char c).
    + exists (c :: p). simpl. f_equal. exact IH.
    + exists []. reflexivity.
Qed.

Lemma lstrip_In (c : ascii) (l : list ascii) : In c (Text.lstrip_chars l) -> In c l.
Proof.
  destruct (lstrip_suffix l) as [p Hp]. intros H. rewrite Hp.
  apply in_or_app. right. exact H.
Qed.

Lemma strip_chars_In (c : ascii) (l : list ascii) : In c (strip_chars l) -> In c l.
Proof.
  unfold strip_chars. intros H.
  apply in_rev, lstrip_In, in_rev, lstrip_In in H. exact H.
Qed.

Lemma strip_chars_idempotent (l : list ascii) : strip_chars (strip_chars l) = strip_chars l.
Proof.
  unfold strip_chars.
  set (A := Text.lstrip_chars l). set (r := Text.lstrip_chars (rev A)).
  assert (HA : no_leading_space A) by apply lstrip_no_leading_space.
  assert (Hr : no_leading_space r) by apply lstrip_no_leading_space.
  assert (Hm : no_leading_space (rev r)).
  { destruct (lstrip_suffix (rev A)) as [p Hp]. fold r in Hp.
    assert (E : A = (rev r ++ rev p)%list).
    { rewrite <- (rev_involutive A), Hp, rev_app_distr. reflexivity. }
    destruct (rev r) as [|c m]; [exact I|].
    rewrite E in HA. exact HA. }
  rewrite (lstrip_fixed _ Hm), rev_involutive, (lstrip_fixed _ Hr). reflexivity.
Qed.

Lemma strip_idempotent (s : string) : Text.strip (Text.strip s) = Text.strip s.
Proof.
  unfold Text.strip. rewrite chars_of_chars.
  change (Text.of_chars (strip_chars (strip_chars (Text.chars s)))
          = Text.of_chars (strip_chars (Text.chars s))).
  rewrite strip_chars_idempotent. reflexivity.
Qed.

Lemma lower_strip_lower (s : string) :
  Text.lower (Text.strip (Text.lower s)) = Text.strip (Text.lower s).
Proof.
  unfold Text.lower, Text.strip. rewrite !chars_of_chars. f_equal.
  change (map Text.lower_char (strip_chars (map Text.lower_char (Text.chars s)))
          = strip_chars (map Text.lower_char (Text.chars s))).
  rewrite <- (map_id (strip_chars _)) at 2.
  apply map_ext_in. intros c Hc.
  apply strip_chars_In, in_map_iff in Hc as (c0 & <- & _).
  apply lower_char_idempotent.
Qed.

(** X16. When skills returns a list, the list has one entry for each
    candidate that is not skipped, and every entry is a string in normal
    form: lowercasing it or trimming it again changes nothing. *)
Theorem skills_entries_normalized (self : Profile) (skills_array : list value) :
  reachable self ->
  (Methods.skills self).2 = Ok (VList skills_array) ->
  length skills_array = length (kept_skills (soup self))
  /\ forall v, v ∈ skills_array ->
               exists t, v = VStr t /\ Text.lower t = t /\ Text.strip t = t.
Proof.
  intros Hr. rewrite (skills_outcome self Hr).
  destruct (mapM Soup.string_of (kept_skills (soup self))) as [texts|] eqn:Htexts;
    [|discriminate].
  intros [= <-]. split.
  - rewrite length_map. symmetry. apply (length_mapM _ _ _ Htexts).
  - intros v Hv. apply list_elem_of_In, in_map_iff in Hv as (t & <- & _).
    exists (Text.strip (Text.lower t)). split; [reflexivity|]. split.
    + apply lower_strip_lower.
    + apply strip_idempotent.
Qed.

Lemma skills_entries_normalized_witness :
  reachable (__init__ page_skills)
  /\ (Methods.skills (__init__ page_skills)).2 = Ok (VList [VStr "machine learning"])
  /\ length [VStr "machine learning"] = length (kept_skills (soup (__init__ page_skills)))
  /\ forall v, v ∈ [VStr "machine learning"] ->
               exists t, v = VStr t /\ Text.lower t = t /\ Text.strip t = t.
Proof.
  assert (H : (Methods.skills (__init__ page_skills)).2 = Ok (VList [VStr "machine learning"]))
    by (vm_compute; reflexivity).
  split; [apply reach_new|]. split; [exact H|].
  exact (skills_entries_normalized (__init__ page_skills) _ (reach_new _) H).
Defined.

(** ** What username can raise *)

Lemma find_all_search_tag (st : Soup.SoupStrainer) (n x : node) :
  In x (Soup.find_all st n) -> Soup.search_tag st x = true.
Proof.
  unfold Soup.find_all, Soup.find_all_with_parent. intros H.
  apply in_map_iff in H as ([p c] & <- & H).
  apply filter_In in H as [_ H]. exact H.
Qed.

Lemma canonical_link_has_href (link : node) :
  Soup.search_tag canonical_link link = true ->
  exists v, Soup.getitem link "href" = Some v.
Proof.
  destruct link as [s|s|name attrs contents]; simpl; try discriminate.
  intros H. apply andb_true_iff in H as [_ H].
  apply andb_true_iff in H as [_ H]. apply andb_true_iff in H as [H _].
  unfold Soup._matches in H.
  destruct (attrs !! "href") as [v|]; [eauto|discriminate H].
Qed.

(** X17. username raises no KeyError: the link it indexes with "href"
    was selected for having that attribute.  What it can raise is an
    IndexError (no canonical link, or no "/in/" in its href) or an
    AttributeError (an href held as a token list). *)
Theorem username_raises_no_KeyError (self : Profile) (e : exn) :
  reachable self ->
  (Methods.username self).2 = Err e ->
  e = IndexError \/ e = AttributeError.
Proof.
  intros Hr. change Methods.username with (getter Username).
  rewrite (pure_getter_reachable Username Methods.def_username self eq_refl Hr).
  unfold Methods.def_username. fold canonical_link.
  destruct (Soup.find_all canonical_link (soup self)) as [|link others] eqn:Hlinks; simpl.
  - intros [= <-]. left. reflexivity.
  - assert (Hin : In link (Soup.find_all canonical_link (soup self)))
      by (rewrite Hlinks; left; reflexivity).
    destruct (canonical_link_has_href link (find_all_search_tag _ _ _ Hin)) as [v Hv].
    unfold Py.tag_getitem. rewrite Hv. simpl.
    destruct v as [url|tokens]; simpl.
    + unfold Text.split1.
      destruct (Text.after_first _ _); simpl; [discriminate|].
      intros [= <-]. left. reflexivity.
    + intros [= <-]. right. reflexivity.
Qed.

Lemma username_raises_no_KeyError_witness :
  reachable (__init__ page_bare)
  /\ (Methods.username (__init__ page_bare)).2 = Err IndexError
  /\ (IndexError = IndexError \/ IndexError = AttributeError).
Proof.
  assert (He : (Methods.username (__init__ page_bare)).2 = Err IndexError)
    by (vm_compute; reflexivity).
  split; [apply reach_new|]. split; [exact He|].
  exact (username_raises_no_KeyError (__init__ page_bare) IndexError (reach_new _) He).
Defined.
